(** * The drowsiness assessment engine of [unified_drowsiness_detector.py]

  A shallow embedding of the feature extractor, the scorer, the frame
  processor and the session counters and alert logic of the class
  [UnifiedDrowsinessDetectorGUI], followed by the properties of the
  specification that can be stated about them.

  Python [float] is IEEE 754 binary64, which is what the primitive
  floats of the prover are, so ratios, thresholds and clock readings are
  kept as [float] and every comparison below is the hardware one.
  Python [int] is [Z]. Two library routines give results that differ
  from one installation to the next, the [pow] of the C library behind
  [x ** 2] and [cv2.circle]; they are the fields of the class
  [Platform], and every property below holds for all of them. *)

From Stdlib Require Import ZArith List String Bool Lia Floats.
Import ListNotations.

Set Warnings "-inexact-float".

(* ================================================================== *)
(** * Python values and exceptions *)

Module Py.

(** The exceptions that the modelled code can raise. [OtherError] stands
    for whatever the imaging and detection libraries raise. *)
Inductive exn : Type :=
| IndexError
| ZeroDivisionError
| OverflowError
| ValueError
| AttributeError
| OtherError.

Inductive result (A : Type) : Type :=
| Ok (a : A)
| Raise (e : exn).
Arguments Ok {A} a.
Arguments Raise {A} e.

Definition rbind {A B} (c : result A) (k : A -> result B) : result B :=
  match c with
  | Ok a => k a
  | Raise e => Raise e
  end.

Definition succeeds {A} (c : result A) : bool :=
  match c with
  | Ok _ => true
  | Raise _ => false
  end.

(** [l[i]] for a non-negative index. *)
Definition getitem {A} (l : list A) (i : nat) : result A :=
  match nth_error l i with
  | Some a => Ok a
  | None => Raise IndexError
  end.

(** [x > y] on floats is [y < x]; both are false on a NaN. *)
Definition gtb (x y : float) : bool := (y <? x)%float.

(** What a routine of the C library leaves in [errno]. *)
Inductive errno : Type := ENone | ERANGE | EOther.

(** The routines whose results the installation decides.
    [libm_pow2 v] is [pow(v, 2.0)] of the C library, the value it
    returns and the [errno] it leaves; it is not correctly rounded on
    every installation, so it can differ from [v * v] in the last place.
    [cv2_circle center color] is [cv2.circle(image, center, 2, color, -1)],
    which returns, or raises on a centre that it cannot take. *)
Class Platform : Type := {
  libm_pow2 : float -> float * errno;
  cv2_circle : Z * Z -> Z * Z * Z -> result unit
}.

(** [_Py_ADJUST_ERANGE1]: an infinite result counts as a range error, and
    a range error on a result of 0 (underflow) is dropped. *)
Definition adjust_erange (ix : float) (e : errno) : errno :=
  match e with
  | ENone => if is_infinity ix then ERANGE else ENone
  | ERANGE => if (ix =? 0)%float then ENone else ERANGE
  | EOther => EOther
  end.

(** [x ** 2] on a float, as [float_pow] of the interpreter computes it:
    a NaN, an infinity, a zero and 1 or -1 are answered at once, any other
    base goes to the C library by its absolute value, and an [errno] left
    after [adjust_erange] is raised, [OverflowError] for a range error. *)
Definition pow2 {P : Platform} (x : float) : result float :=
  if is_nan x then Ok x
  else if is_infinity x then Ok (abs x)
  else if (x =? 0)%float then Ok 0%float
  else
    let iv := if (x <? 0)%float then (- x)%float else x in
    if (iv =? 1)%float then Ok 1%float
    else
      let '(ix, e) := libm_pow2 iv in
      match adjust_erange ix e with
      | ENone => Ok ix
      | ERANGE => Raise OverflowError
      | EOther => Raise ValueError
      end.

(** [float(n)] for an [int]: the nearest float, ties to even. (Beyond
    the range of floats, from 2^1024 on, Python raises [OverflowError]
    where this gives an infinity.) *)
Definition float_of_int (n : Z) : float :=
  SF2Prim (binary_normalize prec emax n 0 false).

(** [int(v)] for a float: the integer part; a NaN and an infinity
    raise. *)
Definition int_of_float (v : float) : result Z :=
  match Prim2SF v with
  | S754_zero _ => Ok 0%Z
  | S754_finite s m e =>
      let n := Z.shiftl (Zpos m) e in Ok (if s then (- n)%Z else n)
  | S754_infinity _ => Raise OverflowError
  | S754_nan => Raise ValueError
  end.

Definition int_as_sf (n : Z) : spec_float :=
  match n with
  | Z0 => S754_zero false
  | Zpos p => S754_finite false p 0
  | Zneg p => S754_finite true p 0
  end.

(** The float nearest to the quotient of two [int]s, the divisor not 0:
    the integers are not converted first, so the quotient is rounded
    once. *)
Definition int_quotient (a b : Z) : float :=
  SF2Prim (SFdiv prec emax (int_as_sf a) (int_as_sf b)).

(** [a / b] on two [int]s: true division, which raises on a zero
    divisor. (A quotient beyond the range of floats raises
    [OverflowError] in Python where this gives an infinity.) *)
Definition truediv (a b : Z) : result float :=
  if (b =? 0)%Z then Raise ZeroDivisionError
  else Ok (int_quotient a b).

(** ** A platform to compute examples on

    The C library squares exactly and rounds once, and [cv2.circle]
    takes every centre whose coordinates fit a C [int]. *)
Definition in_c_int (n : Z) : bool :=
  (-2147483648 <=? n)%Z && (n <=? 2147483647)%Z.

Definition reference_platform : Platform :=
  {| libm_pow2 := fun v => ((v * v)%float, ENone);
     cv2_circle := fun center _ =>
       if in_c_int (fst center) && in_c_int (snd center) then Ok tt
       else Raise OtherError |}.

End Py.
Import Py.

Notation "x <- c ;;; k" := (rbind c (fun x => k))
(at level 61, c at next level, right associativity).
Notation "x >? y" := (gtb x y) (at level 70, no associativity) : float_scope.

(* ================================================================== *)
(** * Feature extractor *)

Module Features.

(** A [NormalizedLandmark]; only [x] and [y] are read. *)
Record landmark : Type := mkLandmark { x : float; y : float; z : float }.

Definition left_eye_landmarks : list nat := [33; 160; 159; 133; 145; 144]%nat.
Definition right_eye_landmarks : list nat := [362; 385; 386; 263; 374; 373]%nat.
Definition mouth_landmarks : list nat := [61; 13; 291; 14]%nat.

(** [np.sqrt((point1.x - point2.x)**2 + (point1.y - point2.y)**2)]; the
    square root is the correctly rounded one and raises nothing. *)
Definition calculate_distance {P : Platform} (point1 point2 : landmark)
  : result float :=
  dx2 <- pow2 (x point1 - x point2)%float ;;;
  dy2 <- pow2 (y point1 - y point2)%float ;;;
  Ok (sqrt (dx2 + dy2))%float.

Definition calculate_eye_aspect_ratio {P : Platform}
    (eye_landmarks : list nat) (landmarks : list landmark) : result float :=
  i1 <- getitem eye_landmarks 0 ;;; p1 <- getitem landmarks i1 ;;;
  i2 <- getitem eye_landmarks 1 ;;; p2 <- getitem landmarks i2 ;;;
  i3 <- getitem eye_landmarks 2 ;;; p3 <- getitem landmarks i3 ;;;
  i4 <- getitem eye_landmarks 3 ;;; p4 <- getitem landmarks i4 ;;;
  i5 <- getitem eye_landmarks 4 ;;; p5 <- getitem landmarks i5 ;;;
  i6 <- getitem eye_landmarks 5 ;;; p6 <- getitem landmarks i6 ;;;
  vertical1 <- calculate_distance p2 p6 ;;;
  vertical2 <- calculate_distance p3 p5 ;;;
  horizontal <- calculate_distance p1 p4 ;;;
  if (horizontal =? 0)%float then Ok 0%float
  else Ok ((vertical1 + vertical2) / (2 * horizontal))%float.

Definition calculate_mouth_aspect_ratio {P : Platform}
    (mouth_landmarks : list nat) (landmarks : list landmark) : result float :=
  i1 <- getitem mouth_landmarks 0 ;;; p1 <- getitem landmarks i1 ;;;
  i2 <- getitem mouth_landmarks 1 ;;; p2 <- getitem landmarks i2 ;;;
  i5 <- getitem mouth_landmarks 2 ;;; p5 <- getitem landmarks i5 ;;;
  i8 <- getitem mouth_landmarks 3 ;;; p8 <- getitem landmarks i8 ;;;
  vertical <- calculate_distance p2 p8 ;;;
  horizontal <- calculate_distance p1 p5 ;;;
  if (horizontal =? 0)%float then Ok 0%float
  else Ok (vertical / horizontal)%float.

End Features.

(* ================================================================== *)
(** * Drowsiness scorer *)

Module Scorer.

Definition assess_drowsiness (left_ear right_ear mar : float)
  : Z * string * list string :=
  let indicators : list string := [] in
  let score := 0%Z in
  let avg_ear := ((left_ear + right_ear) / 2)%float in
  let '(score, indicators) :=
    if (avg_ear <? 0.20)%float then
      ((score + 70)%Z, indicators ++ ["Eyes fully closed (asleep)"%string])
    else if (avg_ear <? 0.293)%float then
      ((score + 60)%Z, indicators ++ ["Eyes nearly closed (very drowsy)"%string])
    else if (avg_ear <? 0.343)%float then
      ((score + 40)%Z, indicators ++ ["Eyes partially closed (drowsy)"%string])
    else if (avg_ear <? 0.393)%float then
      ((score + 25)%Z, indicators ++ ["Eyes slightly closing"%string])
    else if (avg_ear <? 0.443)%float then
      ((score + 10)%Z, indicators ++ ["Eyes narrowing slightly"%string])
    else (score, indicators) in
  let '(score, indicators) :=
    if (mar >? 0.267)%float then
      ((score + 35)%Z, indicators ++ ["Wide yawning detected"%string])
    else if (mar >? 0.167)%float then
      ((score + 30)%Z, indicators ++ ["Yawning detected"%string])
    else if (mar >? 0.117)%float then
      ((score + 15)%Z, indicators ++ ["Mouth opening (possible yawn)"%string])
    else (score, indicators) in
  let score := Z.min score 100 in
  let status :=
    if (score >=? 65)%Z then "Very Drowsy / Asleep"%string
    else if (score >=? 45)%Z then "Drowsy"%string
    else if (score >=? 25)%Z then "Slightly Drowsy"%string
    else if (score >=? 10)%Z then "Mildly Tired"%string
    else "Alert"%string in
  (score, status, indicators).

End Scorer.

(* ================================================================== *)
(** * Frame processor *)

Module Frame.
Import Features Scorer.

(** One frame as the engine sees it: [frame.shape[:2]], height then
    width, and the outcome of the imaging steps and of
    [self.detector.detect], which are external. That outcome is either an
    exception raised on the way, or [detection_result.face_landmarks],
    the list of detected faces (empty when there is none). *)
Record frame : Type := mkFrame {
  shape : Z * Z;
  detection : result (list (list landmark))
}.

Definition analysis : Type :=
  (Z * string * list string * float * float * float)%type.

(** One turn of a loop of [draw_landmarks]. *)
Definition draw_landmark {P : Platform} (landmarks : list landmark)
    (color : Z * Z * Z) (width height : Z) (idx : nat) : result unit :=
  landmark <- getitem landmarks idx ;;;
  px <- int_of_float (x landmark * float_of_int width)%float ;;;
  py <- int_of_float (y landmark * float_of_int height)%float ;;;
  cv2_circle (px, py) color.

Fixpoint draw_each {P : Platform} (landmarks : list landmark)
    (color : Z * Z * Z) (width height : Z) (idxs : list nat) : result unit :=
  match idxs with
  | [] => Ok tt
  | idx :: rest =>
      u <- draw_landmark landmarks color width height idx ;;;
      draw_each landmarks color width height rest
  end.

Definition draw_landmarks {P : Platform} (landmarks : list landmark)
    (left_eye right_eye mouth : list nat) (width height : Z) : result unit :=
  u <- draw_each landmarks (0, 255, 0)%Z width height
         (left_eye ++ right_eye) ;;;
  draw_each landmarks (255, 0, 0)%Z width height mouth.

(** The body of the [try] block of [analyze_frame]. *)
Definition analyze_frame_try {P : Platform} (f : frame) : result analysis :=
  let height := fst (shape f) in
  let width := snd (shape f) in
  face_landmarks <- detection f ;;;
  match face_landmarks with
  | landmarks :: _ =>
      left_ear <- calculate_eye_aspect_ratio left_eye_landmarks landmarks ;;;
      right_ear <- calculate_eye_aspect_ratio right_eye_landmarks landmarks ;;;
      mar <- calculate_mouth_aspect_ratio mouth_landmarks landmarks ;;;
      let '(score, status, indicators) :=
        assess_drowsiness left_ear right_ear mar in
      u <- draw_landmarks landmarks left_eye_landmarks right_eye_landmarks
             mouth_landmarks width height ;;;
      Ok (score, status, indicators, left_ear, right_ear, mar)
  | [] => Ok (0%Z, "No Face"%string, [], 0%float, 0%float, 0%float)
  end.

Definition analyze_frame {P : Platform} (f : frame) : analysis :=
  match analyze_frame_try f with
  | Ok r => r
  | Raise _ => (0%Z, "Error"%string, [], 0%float, 0%float, 0%float)
  end.

Definition score_of (a : analysis) : Z :=
  let '(score, _, _, _, _, _) := a in score.

Definition status_of (a : analysis) : string :=
  let '(_, status, _, _, _, _) := a in status.

(** The two statuses that stand for a frame without a usable face. *)
Definition no_detection (a : analysis) : bool :=
  String.eqb (status_of a) "No Face" || String.eqb (status_of a) "Error".

End Frame.

(* ================================================================== *)
(** * Session state, statistics and alerting *)

Module Session.
Import Frame.

Inductive file_kind : Type := Image | Video | Camera.

Definition is_video (ft : option file_kind) : bool :=
  match ft with Some Video => true | _ => false end.

(** The attributes of the object that the counters and the alert logic
    read or write, and the three statistics labels of the result panel
    (the number each one shows). The other widgets are left out.
    [video_capture] tells whether the attribute of that name holds a
    capture object ([true]) or [None]. The attribute [camera] is left
    out: it holds a capture whenever [camera_active] is set, since
    [start_camera] assigns it before it sets the flag and [stop_camera]
    clears the flag before it drops the capture, so the second test of
    the loop of [_camera_loop] follows from the first. *)
Record gui : Type := mkGui {
  file_type : option file_kind;
  is_playing : bool;
  total_frames : Z;
  current_frame_num : Z;
  camera_active : bool;
  alert_threshold : Z;
  alert_cooldown : float;
  last_alert_time : float;
  drowsy_frames : Z;
  drowsy_detections : Z;
  frames_label : Z;
  detections_label : Z;
  percentage_label : float;
  video_capture : bool
}.

(** What the code hands to the toolkit. *)
Inductive callback : Type :=
| DisplayImage
| UpdateResults (status : string) (score : Z)
                (left_ear right_ear mar : float) (indicators : list string)
| UpdateProgress
| AlertLabelOn      (* alert_label.config(text="DROWSINESS ALERT!") *)
| AlertLabelOff     (* alert_label.config(text="") *)
| PlayAlarm
| ShowNotification
| OnVideoEnd.

Inductive event : Type :=
| After (ms : Z) (cb : callback)          (* root.after(ms, cb) *)
| ShowInfo (total drowsy : Z) (percentage : float) (very_drowsy : Z)
| ShowError.

(** Methods run on the object, may schedule callbacks and may raise; the
    attribute writes made before an exception stay. *)
Definition M (A : Type) : Type := gui -> result A * gui * list event.

Definition ret {A} (a : A) : M A := fun s => (Ok a, s, []).

Definition bind {A B} (c : M A) (k : A -> M B) : M B :=
  fun s =>
    match c s with
    | (Ok a, s1, ev1) => let '(r, s2, ev2) := k a s1 in (r, s2, ev1 ++ ev2)
    | (Raise e, s1, ev1) => (Raise e, s1, ev1)
    end.

Definition gets {A} (f : gui -> A) : M A := fun s => (Ok (f s), s, []).
Definition modify (f : gui -> gui) : M unit := fun s => (Ok tt, f s, []).
Definition emit (e : event) : M unit := fun s => (Ok tt, s, [e]).
Definition lift {A} (r : result A) : M A := fun s => (r, s, []).

Definition state_of {A} (r : result A * gui * list event) : gui := snd (fst r).
Definition events_of {A} (r : result A * gui * list event) : list event := snd r.
Definition outcome_of {A} (r : result A * gui * list event) : result A := fst (fst r).

Notation "x <- c ;; k" := (bind c (fun x => k))
  (at level 61, c at next level, right associativity).
Notation "c ;; k" := (bind c (fun _ => k))
  (at level 61, right associativity).

(** Attribute assignment, one function per attribute that is written. *)
Definition set_file_type (v : option file_kind) (s : gui) : gui :=
  {| file_type := v;
     is_playing := is_playing s;
     total_frames := total_frames s;
     current_frame_num := current_frame_num s;
     camera_active := camera_active s;
     alert_threshold := alert_threshold s;
     alert_cooldown := alert_cooldown s;
     last_alert_time := last_alert_time s;
     drowsy_frames := drowsy_frames s;
     drowsy_detections := drowsy_detections s;
     frames_label := frames_label s;
     detections_label := detections_label s;
     percentage_label := percentage_label s;
     video_capture := video_capture s |}.

Definition set_is_playing (v : bool) (s : gui) : gui :=
  {| file_type := file_type s;
     is_playing := v;
     total_frames := total_frames s;
     current_frame_num := current_frame_num s;
     camera_active := camera_active s;
     alert_threshold := alert_threshold s;
     alert_cooldown := alert_cooldown s;
     last_alert_time := last_alert_time s;
     drowsy_frames := drowsy_frames s;
     drowsy_detections := drowsy_detections s;
     frames_label := frames_label s;
     detections_label := detections_label s;
     percentage_label := percentage_label s;
     video_capture := video_capture s |}.

Definition set_total_frames (v : Z) (s : gui) : gui :=
  {| file_type := file_type s;
     is_playing := is_playing s;
     total_frames := v;
     current_frame_num := current_frame_num s;
     camera_active := camera_active s;
     alert_threshold := alert_threshold s;
     alert_cooldown := alert_cooldown s;
     last_alert_time := last_alert_time s;
     drowsy_frames := drowsy_frames s;
     drowsy_detections := drowsy_detections s;
     frames_label := frames_label s;
     detections_label := detections_label s;
     percentage_label := percentage_label s;
     video_capture := video_capture s |}.

Definition set_current_frame_num (v : Z) (s : gui) : gui :=
  {| file_type := file_type s;
     is_playing := is_playing s;
     total_frames := total_frames s;
     current_frame_num := v;
     camera_active := camera_active s;
     alert_threshold := alert_threshold s;
     alert_cooldown := alert_cooldown s;
     last_alert_time := last_alert_time s;
     drowsy_frames := drowsy_frames s;
     drowsy_detections := drowsy_detections s;
     frames_label := frames_label s;
     detections_label := detections_label s;
     percentage_label := percentage_label s;
     video_capture := video_capture s |}.

Definition set_camera_active (v : bool) (s : gui) : gui :=
  {| file_type := file_type s;
     is_playing := is_playing s;
     total_frames := total_frames s;
     current_frame_num := current_frame_num s;
     camera_active := v;
     alert_threshold := alert_threshold s;
     alert_cooldown := alert_cooldown s;
     last_alert_time := last_alert_time s;
     drowsy_frames := drowsy_frames s;
     drowsy_detections := drowsy_detections s;
     frames_label := frames_label s;
     detections_label := detections_label s;
     percentage_label := percentage_label s;
     video_capture := video_capture s |}.

Definition set_last_alert_time (v : float) (s : gui) : gui :=
  {| file_type := file_type s;
     is_playing := is_playing s;
     total_frames := total_frames s;
     current_frame_num := current_frame_num s;
     camera_active := camera_active s;
     alert_threshold := alert_threshold s;
     alert_cooldown := alert_cooldown s;
     last_alert_time := v;
     drowsy_frames := drowsy_frames s;
     drowsy_detections := drowsy_detections s;
     frames_label := frames_label s;
     detections_label := detections_label s;
     percentage_label := percentage_label s;
     video_capture := video_capture s |}.

Definition set_drowsy_frames (v : Z) (s : gui) : gui :=
  {| file_type := file_type s;
     is_playing := is_playing s;
     total_frames := total_frames s;
     current_frame_num := current_frame_num s;
     camera_active := camera_active s;
     alert_threshold := alert_threshold s;
     alert_cooldown := alert_cooldown s;
     last_alert_time := last_alert_time s;
     drowsy_frames := v;
     drowsy_detections := drowsy_detections s;
     frames_label := frames_label s;
     detections_label := detections_label s;
     percentage_label := percentage_label s;
     video_capture := video_capture s |}.

Definition set_drowsy_detections (v : Z) (s : gui) : gui :=
  {| file_type := file_type s;
     is_playing := is_playing s;
     total_frames := total_frames s;
     current_frame_num := current_frame_num s;
     camera_active := camera_active s;
     alert_threshold := alert_threshold s;
     alert_cooldown := alert_cooldown s;
     last_alert_time := last_alert_time s;
     drowsy_frames := drowsy_frames s;
     drowsy_detections := v;
     frames_label := frames_label s;
     detections_label := detections_label s;
     percentage_label := percentage_label s;
     video_capture := video_capture s |}.

Definition set_frames_label (v : Z) (s : gui) : gui :=
  {| file_type := file_type s;
     is_playing := is_playing s;
     total_frames := total_frames s;
     current_frame_num := current_frame_num s;
     camera_active := camera_active s;
     alert_threshold := alert_threshold s;
     alert_cooldown := alert_cooldown s;
     last_alert_time := last_alert_time s;
     drowsy_frames := drowsy_frames s;
     drowsy_detections := drowsy_detections s;
     frames_label := v;
     detections_label := detections_label s;
     percentage_label := percentage_label s;
     video_capture := video_capture s |}.

Definition set_detections_label (v : Z) (s : gui) : gui :=
  {| file_type := file_type s;
     is_playing := is_playing s;
     total_frames := total_frames s;
     current_frame_num := current_frame_num s;
     camera_active := camera_active s;
     alert_threshold := alert_threshold s;
     alert_cooldown := alert_cooldown s;
     last_alert_time := last_alert_time s;
     drowsy_frames := drowsy_frames s;
     drowsy_detections := drowsy_detections s;
     frames_label := frames_label s;
     detections_label := v;
     percentage_label := percentage_label s;
     video_capture := video_capture s |}.

Definition set_percentage_label (v : float) (s : gui) : gui :=
  {| file_type := file_type s;
     is_playing := is_playing s;
     total_frames := total_frames s;
     current_frame_num := current_frame_num s;
     camera_active := camera_active s;
     alert_threshold := alert_threshold s;
     alert_cooldown := alert_cooldown s;
     last_alert_time := last_alert_time s;
     drowsy_frames := drowsy_frames s;
     drowsy_detections := drowsy_detections s;
     frames_label := frames_label s;
     detections_label := detections_label s;
     percentage_label := v;
     video_capture := video_capture s |}.

Definition set_video_capture (v : bool) (s : gui) : gui :=
  {| file_type := file_type s;
     is_playing := is_playing s;
     total_frames := total_frames s;
     current_frame_num := current_frame_num s;
     camera_active := camera_active s;
     alert_threshold := alert_threshold s;
     alert_cooldown := alert_cooldown s;
     last_alert_time := last_alert_time s;
     drowsy_frames := drowsy_frames s;
     drowsy_detections := drowsy_detections s;
     frames_label := frames_label s;
     detections_label := detections_label s;
     percentage_label := percentage_label s;
     video_capture := v |}.

(** [__init__], with the labels as [create_widgets] leaves them. *)
Definition init : gui :=
  {| file_type := None;
     is_playing := false;
     total_frames := 0;
     current_frame_num := 0;
     camera_active := false;
     alert_threshold := 30;
     alert_cooldown := 5;
     last_alert_time := 0;
     drowsy_frames := 0;
     drowsy_detections := 0;
     frames_label := 0;
     detections_label := 0;
     percentage_label := 0;
     video_capture := false |}.

Definition reset_results : M unit :=
  modify (set_frames_label 0) ;;
  modify (set_detections_label 0) ;;
  modify (set_percentage_label 0).

(** [stop_video]: the capture is released and the attribute is [None]
    afterwards, whether or not it held one. *)
Definition stop_video : M unit :=
  modify (set_is_playing false) ;;
  modify (set_video_capture false).

(** [load_image]; [readable] tells whether [cv2.imread] returned an image. *)
Definition load_image (readable : bool) : M unit :=
  if negb readable then emit ShowError
  else
    modify (set_file_type (Some Image)) ;;
    modify (set_total_frames 1) ;;
    modify (set_current_frame_num 0) ;;
    modify (set_drowsy_detections 0) ;;
    modify (set_drowsy_frames 0) ;;
    reset_results.

(** [load_video]; [opened] is [video_capture.isOpened()] and [frame_count]
    the frame count that the container announces. The capture object is
    assigned before it is tested, so it stays when it did not open. *)
Definition load_video (opened : bool) (frame_count : Z) : M unit :=
  modify (set_video_capture true) ;;
  if negb opened then emit ShowError
  else
    modify (set_total_frames frame_count) ;;
    modify (set_file_type (Some Video)) ;;
    modify (set_current_frame_num 0) ;;
    modify (set_drowsy_detections 0) ;;
    modify (set_drowsy_frames 0) ;;
    reset_results.

(** What [load_file] makes of the extension of the path. *)
Inductive file_ext : Type := ImageExt | VideoExt | UnsupportedExt.

Definition load_file (ext : file_ext) (usable : bool) (frame_count : Z) : M unit :=
  stop_video ;;
  match ext with
  | ImageExt => load_image usable
  | VideoExt => load_video usable frame_count
  | UnsupportedExt => emit ShowError
  end.

(** [start_camera]; [opened] is [camera.isOpened()]. The worker thread it
    starts is [_camera_loop] below. *)
Definition start_camera (opened : bool) : M unit :=
  stop_video ;;
  if negb opened then emit ShowError
  else
    modify (set_file_type (Some Camera)) ;;
    modify (set_camera_active true) ;;
    modify (set_total_frames 0) ;;
    modify (set_current_frame_num 0) ;;
    modify (set_drowsy_detections 0) ;;
    modify (set_drowsy_frames 0) ;;
    modify (set_last_alert_time 0) ;;
    reset_results.

Definition stop_camera : M unit :=
  modify (set_camera_active false) ;;
  modify (set_file_type None).

(** [trigger_camera_alert]; [current_time] is what [time.time()] returns. *)
Definition trigger_camera_alert (current_time : float) : M unit :=
  last <- gets last_alert_time ;;
  cooldown <- gets alert_cooldown ;;
  if (current_time - last >? cooldown)%float then
    modify (set_last_alert_time current_time) ;;
    emit (After 0 AlertLabelOn) ;;
    emit (After 0 PlayAlarm) ;;
    emit (After 0 ShowNotification) ;;
    emit (After 3000 AlertLabelOff)
  else ret tt.

(** One turn of the [while] loop of [_camera_loop] after a successful
    read; [now] is the clock at that turn. *)
Definition camera_frame {P : Platform} (f : frame) (now : float) : M unit :=
  n <- gets current_frame_num ;;
  modify (set_current_frame_num (n + 1)) ;;
  let '(score, status, indicators, left_ear, right_ear, mar) :=
    analyze_frame f in
  (if (score >=? 65)%Z then
     d <- gets drowsy_frames ;;
     modify (set_drowsy_frames (d + 1)) ;;
     d' <- gets drowsy_frames ;;
     threshold <- gets alert_threshold ;;
     if (d' >=? threshold)%Z then trigger_camera_alert now else ret tt
   else modify (set_drowsy_frames 0)) ;;
  (if (score >=? 45)%Z then
     k <- gets drowsy_detections ;;
     modify (set_drowsy_detections (k + 1))
   else ret tt) ;;
  emit (After 0 DisplayImage) ;;
  emit (After 0 (UpdateResults status score left_ear right_ear mar indicators)).

(** [_camera_loop] over what [camera.read()] delivers, each read paired
    with the clock; [None] is a failed read. *)
Fixpoint _camera_loop {P : Platform} (reads : list (option frame * float))
  : M unit :=
  match reads with
  | [] => ret tt
  | (rd, now) :: rest =>
      active <- gets camera_active ;;
      if negb active then ret tt
      else
        match rd with
        | None => ret tt
        | Some f => camera_frame f now ;; _camera_loop rest
        end
  end.

(** One turn of the loop of [_play_video_thread] after a successful read. *)
Definition video_frame {P : Platform} (f : frame) : M unit :=
  n <- gets current_frame_num ;;
  modify (set_current_frame_num (n + 1)) ;;
  let '(score, status, indicators, left_ear, right_ear, mar) :=
    analyze_frame f in
  (if (score >=? 45)%Z then
     k <- gets drowsy_detections ;;
     modify (set_drowsy_detections (k + 1)) ;;
     if (score >=? 65)%Z then
       d <- gets drowsy_frames ;;
       modify (set_drowsy_frames (d + 1))
     else ret tt
   else ret tt) ;;
  emit (After 0 DisplayImage) ;;
  emit (After 0 (UpdateResults status score left_ear right_ear mar indicators)) ;;
  emit (After 0 UpdateProgress).

(** [_play_video_thread] over what [video_capture.read()] delivers. *)
Fixpoint _play_video_thread {P : Platform} (reads : list (option frame))
  : M unit :=
  match reads with
  | [] => ret tt
  | rd :: rest =>
      playing <- gets is_playing ;;
      capture <- gets video_capture ;;
      if negb (playing && capture) then ret tt
      else
        match rd with
        | None => emit (After 0 OnVideoEnd)
        | Some f => video_frame f ;; _play_video_thread rest
        end
  end.

Definition on_video_end : M unit :=
  modify (set_is_playing false) ;;
  total <- gets total_frames ;;
  (if (total >? 0)%Z then
     detections <- gets drowsy_detections ;;
     n <- gets current_frame_num ;;
     q <- lift (truediv detections n) ;;
     let percentage := (q * 100)%float in
     very <- gets drowsy_frames ;;
     emit (ShowInfo n detections percentage very)
   else ret tt) ;;
  capture <- gets video_capture ;;
  (if capture then ret tt else lift (Raise AttributeError)) ;;
  modify (set_current_frame_num 0).

(** The statistics part of [update_results]. *)
Definition update_results : M unit :=
  ft <- gets file_type ;;
  n <- gets current_frame_num ;;
  total <- gets total_frames ;;
  let analyzed := if is_video ft then n else total in
  modify (set_frames_label analyzed) ;;
  detections <- gets drowsy_detections ;;
  modify (set_detections_label detections) ;;
  if (analyzed >? 0)%Z then
    q <- lift (truediv detections analyzed) ;;
    let percentage := (q * 100)%float in
    modify (set_percentage_label percentage)
  else ret tt.

Definition play_video : M unit :=
  capture <- gets video_capture ;;
  ft <- gets file_type ;;
  if negb capture || negb (is_video ft) then ret tt
  else modify (set_is_playing true).

Definition pause_video : M unit := modify (set_is_playing false).

(** ** Observations on a run *)

(** The alarm callback is scheduled once per alert that fires. *)
Definition is_alert_fired (e : event) : bool :=
  match e with
  | After _ PlayAlarm => true
  | _ => false
  end.

Definition alerts_fired (evs : list event) : nat :=
  List.length (filter is_alert_fired evs).

Definition frame_score {P : Platform} (f : frame) : Z :=
  score_of (analyze_frame f).

(** The frames of a list whose score reaches [bound]. *)
Definition count_scoring {P : Platform} (bound : Z) (fs : list frame) : Z :=
  Z.of_nat (List.length (filter (fun f => (frame_score f >=? bound)%Z) fs)).

(** A read that delivers frame [f] when the clock shows [t]. *)
Definition at_time (f : frame) (t : float) : option frame * float := (Some f, t).

Definition is_drowsy_read {P : Platform} (rd : option frame * float) : bool :=
  match fst rd with
  | Some f => (frame_score f >=? 65)%Z
  | None => false
  end.

(** The clock of the read is within [cooldown] of the alert at [last]:
    the test of [trigger_camera_alert] fails. *)
Definition in_cooldown (last cooldown : float) (rd : option frame * float) : bool :=
  negb (snd rd - last >? cooldown)%float.

(** The settings that no frame changes. *)
Definition same_config (s s' : gui) : Prop :=
  alert_threshold s' = alert_threshold s
  /\ alert_cooldown s' = alert_cooldown s
  /\ camera_active s' = camera_active s
  /\ is_playing s' = is_playing s
  /\ file_type s' = file_type s
  /\ total_frames s' = total_frames s
  /\ video_capture s' = video_capture s.

(** A face whose landmarks all coincide, in a picture of 640 by 480:
    both eye ratios are 0, which scores as fully closed eyes. *)
Definition closed_eyes_frame : frame :=
  mkFrame (480, 640)%Z (Ok [repeat (Features.mkLandmark 0.5 0.5 0) 468]).

(** No face in the picture. *)
Definition empty_frame : frame := mkFrame (480, 640)%Z (Ok []).

End Session.

(* ================================================================== *)
(** * The scorer as the specification words it

  The band tables of the specification, with both ends of every range
  written out, the tags it uses for indicators and statuses, and the
  texts that the code uses for them. *)

Module Spec.

Inductive Indicator : Type :=
| EyesFullyClosed | EyesNearlyClosed | EyesPartiallyClosed
| EyesSlightlyClosing | EyesNarrowing
| WideYawn | Yawning | MouthOpening.

Inductive Status : Type :=
| Alert | MildlyTired | SlightlyDrowsy | Drowsy | VeryDrowsyAsleep
| NoFace | Error.

Definition indicator_text (i : Indicator) : string :=
  match i with
  | EyesFullyClosed => "Eyes fully closed (asleep)"
  | EyesNearlyClosed => "Eyes nearly closed (very drowsy)"
  | EyesPartiallyClosed => "Eyes partially closed (drowsy)"
  | EyesSlightlyClosing => "Eyes slightly closing"
  | EyesNarrowing => "Eyes narrowing slightly"
  | WideYawn => "Wide yawning detected"
  | Yawning => "Yawning detected"
  | MouthOpening => "Mouth opening (possible yawn)"
  end%string.

Definition status_text (s : Status) : string :=
  match s with
  | Alert => "Alert"
  | MildlyTired => "Mildly Tired"
  | SlightlyDrowsy => "Slightly Drowsy"
  | Drowsy => "Drowsy"
  | VeryDrowsyAsleep => "Very Drowsy / Asleep"
  | NoFace => "No Face"
  | Error => "Error"
  end%string.

Definition is_eye_indicator (i : Indicator) : bool :=
  match i with
  | EyesFullyClosed | EyesNearlyClosed | EyesPartiallyClosed
  | EyesSlightlyClosing | EyesNarrowing => true
  | _ => false
  end.

Definition is_mouth_indicator (i : Indicator) : bool :=
  match i with
  | WideYawn | Yawning | MouthOpening => true
  | _ => false
  end.

Definition all_indicators : list Indicator :=
  [EyesFullyClosed; EyesNearlyClosed; EyesPartiallyClosed;
   EyesSlightlyClosing; EyesNarrowing; WideYawn; Yawning; MouthOpening].

(** The tag that a text of the code stands for, if any. *)
Definition indicator_of_text (t : string) : option Indicator :=
  find (fun i => String.eqb (indicator_text i) t) all_indicators.

(** One row of a band table. *)
Record band : Type := mkBand {
  in_range : float -> bool;
  points : Z;
  tag : option Indicator
}.

Definition eye_bands : list band :=
  [ mkBand (fun a => a <? 0.20) 70 (Some EyesFullyClosed);
    mkBand (fun a => (0.20 <=? a) && (a <? 0.293)) 60 (Some EyesNearlyClosed);
    mkBand (fun a => (0.293 <=? a) && (a <? 0.343)) 40 (Some EyesPartiallyClosed);
    mkBand (fun a => (0.343 <=? a) && (a <? 0.393)) 25 (Some EyesSlightlyClosing);
    mkBand (fun a => (0.393 <=? a) && (a <? 0.443)) 10 (Some EyesNarrowing);
    mkBand (fun a => 0.443 <=? a) 0 None ]%float.

Definition mouth_bands : list band :=
  [ mkBand (fun m => 0.267 <? m) 35 (Some WideYawn);
    mkBand (fun m => (0.167 <? m) && (m <=? 0.267)) 30 (Some Yawning);
    mkBand (fun m => (0.117 <? m) && (m <=? 0.167)) 15 (Some MouthOpening);
    mkBand (fun m => m <=? 0.117) 0 None ]%float.

Definition matching (bands : list band) (v : float) : list band :=
  filter (fun b => in_range b v) bands.

Definition first_match (bands : list band) (v : float) : option band :=
  find (fun b => in_range b v) bands.

Definition band_points (b : option band) : Z :=
  match b with Some b => points b | None => 0 end.

Definition band_tags (b : option band) : list Indicator :=
  match b with
  | Some b => match tag b with Some t => [t] | None => [] end
  | None => []
  end.

Definition avgEAR (leftEAR rightEAR : float) : float :=
  ((leftEAR + rightEAR) / 2)%float.

Definition eyePoints (leftEAR rightEAR : float) : Z :=
  band_points (first_match eye_bands (avgEAR leftEAR rightEAR)).

Definition mouthPoints (MAR : float) : Z :=
  band_points (first_match mouth_bands MAR).

Definition score (leftEAR rightEAR MAR : float) : Z :=
  Z.min (eyePoints leftEAR rightEAR + mouthPoints MAR) 100.

Definition indicators (leftEAR rightEAR MAR : float) : list Indicator :=
  band_tags (first_match eye_bands (avgEAR leftEAR rightEAR))
  ++ band_tags (first_match mouth_bands MAR).

Definition status_bands : list (Z * Status) :=
  [ (65, VeryDrowsyAsleep); (45, Drowsy); (25, SlightlyDrowsy);
    (10, MildlyTired) ]%Z.

Definition status_of_score (s : Z) : Status :=
  match find (fun row => (s >=? fst row)%Z) status_bands with
  | Some row => snd row
  | None => Alert
  end.

(** The percentage of section 4.4. *)
Definition percentage (drowsyDetections framesAnalyzed : Z) : float :=
  if (framesAnalyzed =? 0)%Z then 0%float
  else (int_quotient drowsyDetections framesAnalyzed * 100)%float.

(** [d] is the Euclidean distance of two landmarks in the plane of [x]
    and [y] (section 4.1): the square root of the sum of the squares of
    the two coordinate differences, the squares being those that [**]
    gives. When a square cannot be computed there is no such [d]. *)
Definition euclidean {P : Platform} (p q : Features.landmark) (d : float)
  : Prop :=
  exists sx sy,
    pow2 (Features.x p - Features.x q)%float = Ok sx
    /\ pow2 (Features.y p - Features.y q)%float = Ok sy
    /\ d = sqrt (sx + sy)%float.

(** The classes of the texts that the code puts in its indicator list. *)
Definition is_eye_text (t : string) : bool :=
  match indicator_of_text t with
  | Some i => is_eye_indicator i
  | None => false
  end.

Definition is_mouth_text (t : string) : bool :=
  match indicator_of_text t with
  | Some i => is_mouth_indicator i
  | None => false
  end.

End Spec.

(* ================================================================== *)
(** * Classes of binary64 values

  The comparisons of the scorer are read through the specification
  floats of the library ([Prim2SF]). *)

Module Binary64.

Definition not_nan (x : spec_float) : Prop := x <> S754_nan.

(** Zero of either sign, a positive finite value or plus infinity:
    the values [x] with [0 <= x]. *)
Definition sf_nonneg (x : spec_float) : Prop :=
  match x with
  | S754_zero _ => True
  | S754_infinity s => s = false
  | S754_nan => False
  | S754_finite s _ _ => s = false
  end.

(** [x] is a number that is not negative, as Python's [0 <= x] tests it. *)
Definition nonneg (x : float) : Prop := (0 <=? x)%float = true.

End Binary64.
Import Binary64.

(* ================================================================== *)
(** * The other controls of the window *)

Module Controls.
Import Frame Session.
Local Open Scope Z_scope.

Definition is_image (ft : option file_kind) : bool :=
  match ft with Some Image => true | _ => false end.

Definition toggle_play_pause : M unit :=
  playing <- gets is_playing ;;
  if playing then pause_video else play_video.

Definition toggle_camera (opened : bool) : M unit :=
  active <- gets camera_active ;;
  if active then stop_camera else start_camera opened.

Definition clear_file : M unit :=
  stop_video ;;
  stop_camera ;;
  modify (set_file_type None) ;;
  reset_results.

Definition on_closing : M unit :=
  stop_video ;;
  stop_camera.

(** [_analyze_image_thread]; [readable] tells whether [cv2.imread] gives
    an image this time, [f] is what the detector makes of it. A failure
    ends in an error box. *)
Definition _analyze_image_thread {P : Platform} (readable : bool) (f : frame)
  : M unit :=
  if negb readable then emit ShowError
  else
    let '(score, status, indicators, left_ear, right_ear, mar) :=
      analyze_frame f in
    emit (After 0 DisplayImage) ;;
    emit (After 0 (UpdateResults status score left_ear right_ear mar indicators)).

Definition analyze_image {P : Platform} (readable : bool) (f : frame)
  : M unit :=
  ft <- gets file_type ;;
  if is_image ft then _analyze_image_thread readable f else ret tt.

(** The colour that [update_results] gives the status line. *)
Definition panel_color (status : string) : string :=
  (if String.eqb status "Alert" then "#00FF00"
   else if String.eqb status "Mildly Tired" then "#FFFF00"
   else if String.eqb status "Slightly Drowsy" then "#FFA500"
   else if String.eqb status "Drowsy" then "#FF6400"
   else "#FF0000")%string.

(** The colour (blue, green, red) that [draw_status_on_frame] writes the
    status in. *)
Definition overlay_color (status : string) : Z * Z * Z :=
  if String.eqb status "Alert" then (0, 255, 0)
  else if String.eqb status "Mildly Tired" then (0, 255, 255)
  else if String.eqb status "Slightly Drowsy" then (0, 200, 255)
  else if String.eqb status "Drowsy" then (0, 100, 255)
  else (0, 0, 255).

(** Whether [update_results] writes its high-drowsiness text into the
    alert label ([true]) or clears the label ([false]). *)
Definition high_drowsiness (score : Z) : bool := (score >=? 70)%Z.

(** ** Observations on counters and runs *)

Definition counters_ordered (s : gui) : Prop :=
  0 <= drowsy_frames s
  /\ drowsy_frames s <= drowsy_detections s
  /\ drowsy_detections s <= current_frame_num s.

(** The largest value that a counter of consecutive drowsy reads takes
    over [reads] when it starts at [c]. *)
Fixpoint peak_streak {P : Platform} (c : Z)
    (reads : list (option frame * float)) : Z :=
  match reads with
  | [] => c
  | rd :: rest =>
      let c' := if is_drowsy_read rd then c + 1 else 0 in
      Z.max c (peak_streak c' rest)
  end.

(** No clock of [reads] is more than [cooldown] past the clock of an
    earlier read. *)
Fixpoint pairwise_within (cooldown : float)
    (reads : list (option frame * float)) : bool :=
  match reads with
  | [] => true
  | rd :: rest =>
      forallb (in_cooldown (snd rd) cooldown) rest
      && pairwise_within cooldown rest
  end.

End Controls.

(* ================================================================== *)
(** * The two contributions of the scorer *)

Module ScorerParts.
Local Open Scope Z_scope.

(** The points of the [if]/[elif] chain on [avg_ear] in
    [assess_drowsiness]. *)
Definition eye_points (avg_ear : float) : Z :=
  if (avg_ear <? 0.20)%float then 70
  else if (avg_ear <? 0.293)%float then 60
  else if (avg_ear <? 0.343)%float then 40
  else if (avg_ear <? 0.393)%float then 25
  else if (avg_ear <? 0.443)%float then 10
  else 0.

(** The points of the chain on [mar]. *)
Definition mouth_points (mar : float) : Z :=
  if (mar >? 0.267)%float then 35
  else if (mar >? 0.167)%float then 30
  else if (mar >? 0.117)%float then 15
  else 0.

End ScorerParts.

(* ================================================================== *)
(** * Alarm sound *)

Module Alarm.
Local Open Scope Z_scope.

(** What [play_alarm] reads: the check box, the custom sound chosen by
    [select_alarm_sound], the volume and whether the mixer started. *)
Record settings : Type := mkSettings {
  alarm_var : bool;
  use_custom_alarm : bool;
  custom_alarm_path : option string;
  alarm_volume : float;
  pygame_available : bool
}.

Inductive sound : Type :=
| CustomSound (path : string) (volume : float)  (* pygame.mixer.music *)
| Beep (frequency duration : Z)                 (* winsound.Beep *)
| Bell.                                         (* print of the bell character *)

(** Truth value of a path that may be [None] or empty. *)
Definition truthy (p : option string) : bool :=
  match p with
  | Some EmptyString => false
  | Some _ => true
  | None => false
  end.

(** [play_alarm]; [audio_ok] tells whether the calls into the sound
    libraries return without raising. *)
Definition play_alarm (cfg : settings) (audio_ok : bool) : list sound :=
  if negb (alarm_var cfg) then []
  else if use_custom_alarm cfg && truthy (custom_alarm_path cfg)
          && pygame_available cfg then
    match custom_alarm_path cfg with
    | Some path =>
        if audio_ok then [CustomSound path (alarm_volume cfg)] else [Bell]
    | None => [Bell]
    end
  else if pygame_available cfg then
    if audio_ok then [Beep 1000 500] else [Bell]
  else [Bell].

End Alarm.

(* ================================================================== *)
(** * Dropped paths *)

Module Paths.
Import Stdlib.Strings.Ascii.
Local Open Scope string_scope.

Definition startswith (c : Ascii.ascii) (p : string) : bool :=
  match p with
  | String a _ => Ascii.eqb a c
  | EmptyString => false
  end.

Fixpoint endswith (c : Ascii.ascii) (p : string) : bool :=
  match p with
  | EmptyString => false
  | String a EmptyString => Ascii.eqb a c
  | String _ rest => endswith c rest
  end.

(** [p[1:-1]] *)
Definition slice_1_m1 (p : string) : string :=
  substring 1 (String.length p - 2) p.

(** The path that [drop_file] hands to [load_file]. *)
Definition drop_file (file_path : string) : string :=
  if startswith "{"%char file_path && endswith "}"%char file_path
  then slice_1_m1 file_path
  else file_path.

End Paths.

(* ================================================================== *)
(** * Frame pacing of the playback thread *)

Module Pacing.

(** The frame rate that [load_video] keeps: what the container reports,
    or 30 when it reports 0. *)
Definition video_fps (reported : float) : float :=
  if (reported =? 0)%float then 30%float else reported.

(** [a / b] with a float divisor: raises on a zero of either sign. *)
Definition fdiv (a b : float) : result float :=
  if (b =? 0)%float then Raise ZeroDivisionError else Ok (a / b)%float.

(** [frame_delay = 1.0 / self.fps] *)
Definition frame_delay (fps : float) : result float := fdiv 1 fps.

(** [current_frame_num / self.fps], the progress shown. *)
Definition progress_time (frame_num : Z) (fps : float) : result float :=
  fdiv (float_of_int frame_num) fps.

(** [max(0, frame_delay - elapsed)] *)
Definition sleep_time (frame_delay elapsed : float) : float :=
  let d := (frame_delay - elapsed)%float in
  if (0 <? d)%float then d else 0%float.

End Pacing.

(* ================================================================== *)
(** * Signs of specification floats *)

Module Sign.

(** Not negative, as far as the sign bit goes: a NaN, or a zero, an
    infinity or a finite value with sign bit 0. *)
Definition sf_plus (x : spec_float) : Prop :=
  match x with
  | S754_zero s => s = false
  | S754_infinity s => s = false
  | S754_nan => True
  | S754_finite s _ _ => s = false
  end.

(** Not below zero in value: a NaN, a zero of either sign, plus infinity
    or a finite value with sign bit 0. These are the values [x] for
    which [x < 0] is false. *)
Definition sf_not_negative (x : spec_float) : Prop :=
  match x with
  | S754_zero _ => True
  | S754_infinity s => s = false
  | S754_nan => True
  | S754_finite s _ _ => s = false
  end.

End Sign.

(* ================================================================== *)
(** * Order facts on specification floats *)

Section SpecFloatOrder.

Lemma compare_cont_flip (m1 m2 : positive) :
  PosDef.Pos.compare_cont Eq m2 m1
  = CompOpp (PosDef.Pos.compare_cont Eq m1 m2).
Proof. symmetry. exact (Pos.compare_cont_antisym m1 m2 Eq). Qed.

Lemma SFcompare_antisym (x y : spec_float) :
  SFcompare y x = option_map CompOpp (SFcompare x y).
Proof.
  destruct x as [[]|[]| |[] mx ex], y as [[]|[]| |[] my ey];
    simpl; try reflexivity;
    rewrite (Z.compare_antisym ey ex);
    destruct (ey ?= ex)%Z; simpl; try reflexivity;
    rewrite (compare_cont_flip mx my); try reflexivity;
    now rewrite CompOpp_involutive.
Qed.

Lemma SFleb_negb_ltb (x y : spec_float) :
  not_nan x -> not_nan y -> SFleb y x = negb (SFltb x y).
Proof.
  intros Hx Hy. unfold SFleb, SFltb.
  rewrite (SFcompare_antisym x y).
  destruct (SFcompare x y) as [[]|] eqn:E; simpl; try reflexivity.
  exfalso.
  destruct x as [[]|[]| |[] mx ex], y as [[]|[]| |[] my ey];
    simpl in E; try discriminate;
    try (apply Hx; reflexivity); apply Hy; reflexivity.
Qed.

Lemma SFltb_not_nan (x y : spec_float) :
  SFltb x y = true -> not_nan x /\ not_nan y.
Proof.
  unfold SFltb, not_nan.
  destruct x as [[]|[]| |[] mx ex], y as [[]|[]| |[] my ey];
    simpl; intros H; split; congruence.
Qed.

Lemma SFleb_not_nan (x y : spec_float) :
  SFleb x y = true -> not_nan x /\ not_nan y.
Proof.
  unfold SFleb, not_nan.
  destruct x as [[]|[]| |[] mx ex], y as [[]|[]| |[] my ey];
    simpl; intros H; split; congruence.
Qed.

Lemma sf_nonneg_not_nan (x : spec_float) : sf_nonneg x -> not_nan x.
Proof. destruct x; simpl; unfold not_nan; intros H; congruence || tauto. Qed.

(** The order on finite values of one sign is the lexicographic order on
    exponent and mantissa, hence transitive. *)
Lemma lex_lt_trans (e1 e2 e3 : Z) (m1 m2 m3 : positive) :
  match (e1 ?= e2)%Z with
  | Lt => Lt | Gt => Gt | Eq => PosDef.Pos.compare_cont Eq m1 m2 end = Lt ->
  match (e2 ?= e3)%Z with
  | Lt => Lt | Gt => Gt | Eq => PosDef.Pos.compare_cont Eq m2 m3 end = Lt ->
  match (e1 ?= e3)%Z with
  | Lt => Lt | Gt => Gt | Eq => PosDef.Pos.compare_cont Eq m1 m3 end = Lt.
Proof.
  change (PosDef.Pos.compare_cont Eq) with Pos.compare.
  destruct (Z.compare_spec e1 e2), (Z.compare_spec e2 e3),
    (Z.compare_spec e1 e3); try discriminate; try lia; intros H12 H23;
    try reflexivity.
  exact (Pos.lt_trans _ _ _ H12 H23).
Qed.

Lemma lex_gt_trans (e1 e2 e3 : Z) (m1 m2 m3 : positive) :
  match (e1 ?= e2)%Z with
  | Lt => Gt | Gt => Lt
  | Eq => CompOpp (PosDef.Pos.compare_cont Eq m1 m2) end = Lt ->
  match (e2 ?= e3)%Z with
  | Lt => Gt | Gt => Lt
  | Eq => CompOpp (PosDef.Pos.compare_cont Eq m2 m3) end = Lt ->
  match (e1 ?= e3)%Z with
  | Lt => Gt | Gt => Lt
  | Eq => CompOpp (PosDef.Pos.compare_cont Eq m1 m3) end = Lt.
Proof.
  change (PosDef.Pos.compare_cont Eq) with Pos.compare.
  destruct (Z.compare_spec e1 e2), (Z.compare_spec e2 e3),
    (Z.compare_spec e1 e3); try discriminate; try lia; intros H12 H23;
    try reflexivity.
  destruct (Pos.compare_spec m1 m2), (Pos.compare_spec m2 m3),
    (Pos.compare_spec m1 m3); simpl in *; try discriminate; try reflexivity;
    lia.
Qed.

Lemma is_Lt_true (c : comparison) :
  match c with Lt => true | _ => false end = true -> c = Lt.
Proof. destruct c; intros H; congruence. Qed.

Lemma SFltb_trans (x y z : spec_float) :
  SFltb x y = true -> SFltb y z = true -> SFltb x z = true.
Proof.
  unfold SFltb.
  destruct x as [[]|[]| |[] mx ex], y as [[]|[]| |[] my ey],
    z as [[]|[]| |[] mz ez];
    simpl; try discriminate; try reflexivity; intros H12 H23;
    apply is_Lt_true in H12; apply is_Lt_true in H23.
  - now rewrite (lex_gt_trans ex ey ez mx my mz H12 H23).
  - now rewrite (lex_lt_trans ex ey ez mx my mz H12 H23).
Qed.

End SpecFloatOrder.

(* ================================================================== *)
(** * Rounding keeps a non-negative result non-negative *)

Section SpecFloatRounding.
Variables prec emax : Z.

Lemma shr_1_nonneg (mrs : shr_record) :
  (0 <= shr_m mrs)%Z -> (0 <= shr_m (shr_1 mrs))%Z.
Proof.
  destruct mrs as [m r s]; destruct m as [|[p|p|]|p]; simpl; lia.
Qed.

Lemma iter_shr_1_nonneg (p : positive) :
  forall mrs, (0 <= shr_m mrs)%Z -> (0 <= shr_m (iter_pos shr_1 p mrs))%Z.
Proof.
  induction p as [p IH|p IH|]; simpl; intros mrs H.
  - apply IH, IH, shr_1_nonneg, H.
  - apply IH, IH, H.
  - apply shr_1_nonneg, H.
Qed.

Lemma shr_nonneg (mrs : shr_record) (e n : Z) :
  (0 <= shr_m mrs)%Z -> (0 <= shr_m (fst (shr mrs e n)))%Z.
Proof.
  intros H. destruct n; simpl; auto using iter_shr_1_nonneg.
Qed.

Lemma shr_fexp_nonneg (m e : Z) (l : location) :
  (0 <= m)%Z -> (0 <= shr_m (fst (shr_fexp prec emax m e l)))%Z.
Proof.
  intros H. unfold shr_fexp. apply shr_nonneg.
  destruct l as [|[]]; exact H.
Qed.

Lemma round_nearest_even_nonneg (m : Z) (l : location) :
  (0 <= m)%Z -> (0 <= round_nearest_even m l)%Z.
Proof.
  intros H. destruct l as [|[]]; simpl; try lia.
  destruct (Z.even m); lia.
Qed.

Lemma binary_round_aux_nonneg (mx ex : Z) (lx : location) :
  (0 <= mx)%Z -> sf_nonneg (binary_round_aux prec emax false mx ex lx).
Proof.
  intros H. unfold binary_round_aux.
  pose proof (shr_fexp_nonneg mx ex lx H) as H1.
  destruct (shr_fexp prec emax mx ex lx) as [mrs' e']. simpl in H1.
  pose proof (shr_fexp_nonneg _ e' loc_Exact
                (round_nearest_even_nonneg _ (loc_of_shr_record mrs') H1))
    as H2.
  destruct (shr_fexp prec emax _ e' loc_Exact) as [mrs'' e'']. simpl in H2.
  destruct (shr_m mrs'') as [|m|m]; simpl; try exact I; try lia.
  destruct (e'' <=? emax - prec)%Z; reflexivity.
Qed.

Lemma binary_round_nonneg (mx : positive) (ex : Z) :
  sf_nonneg (binary_round prec emax false mx ex).
Proof.
  unfold binary_round.
  destruct (shl_align mx ex _) as [mz ez].
  apply binary_round_aux_nonneg. lia.
Qed.

Lemma SFadd_nonneg (x y : spec_float) :
  sf_nonneg x -> sf_nonneg y -> sf_nonneg (SFadd prec emax x y).
Proof.
  destruct x as [sx|sx| |sx mx ex], y as [sy|sy| |sy my ey];
    simpl; intros Hx Hy; subst; try tauto; try reflexivity.
  - destruct sx, sy; exact I.
  - apply binary_round_nonneg.
Qed.

Lemma div_eucl_nonneg (a : Z) (b : positive) :
  (0 <= a)%Z -> (0 <= fst (Z.div_eucl a (Zpos b)))%Z.
Proof.
  intros H. change (fst (Z.div_eucl a (Z.pos b))) with (a / Z.pos b)%Z.
  apply Z.div_pos; lia.
Qed.

Lemma SFdiv_nonneg (x : spec_float) (my : positive) (ey : Z) :
  sf_nonneg x -> sf_nonneg (SFdiv prec emax x (S754_finite false my ey)).
Proof.
  destruct x as [sx|sx| |sx mx ex]; simpl; intros Hx; subst;
    try tauto; try reflexivity.
  unfold SFdiv_core_binary.
  set (s := (ex - ey - _)%Z).
  set (m' := match s with Z0 => Zpos mx | Zpos _ => Z.shiftl (Zpos mx) s
                        | Zneg _ => Z0 end).
  assert (Hm : (0 <= m')%Z).
  { unfold m'. destruct s; try lia. apply Z.shiftl_nonneg. lia. }
  pose proof (div_eucl_nonneg m' my Hm) as Hq.
  destruct (Z.div_eucl m' (Zpos my)) as [q r]. simpl in Hq.
  apply binary_round_aux_nonneg, Hq.
Qed.

End SpecFloatRounding.

(* ================================================================== *)
(** * Order facts on primitive floats *)

Section FloatOrder.

Lemma nonneg_sf (x : float) : nonneg x -> sf_nonneg (Prim2SF x).
Proof.
  unfold nonneg. rewrite leb_spec.
  change (Prim2SF 0) with (S754_zero false).
  destruct (Prim2SF x) as [s|[]| |[] m e]; simpl; intros H;
    try discriminate; auto.
Qed.

Lemma ltb_not_nan (a t : float) :
  (a <? t)%float = true -> not_nan (Prim2SF a) /\ not_nan (Prim2SF t).
Proof. rewrite ltb_spec. apply SFltb_not_nan. Qed.

Lemma leb_not_nan (a t : float) :
  (a <=? t)%float = true -> not_nan (Prim2SF a) /\ not_nan (Prim2SF t).
Proof. rewrite leb_spec. apply SFleb_not_nan. Qed.

Lemma leb_negb_ltb (a t : float) :
  not_nan (Prim2SF a) -> not_nan (Prim2SF t) ->
  (t <=? a)%float = negb (a <? t)%float.
Proof.
  intros Ha Ht. rewrite leb_spec, ltb_spec. now apply SFleb_negb_ltb.
Qed.

Lemma ltb_trans (a b c : float) :
  (a <? b)%float = true -> (b <? c)%float = true -> (a <? c)%float = true.
Proof. rewrite !ltb_spec. apply SFltb_trans. Qed.

(** The average of two non-negative ratios is a number. *)
Lemma avg_not_nan (l r : float) :
  nonneg l -> nonneg r -> not_nan (Prim2SF ((l + r) / 2)%float).
Proof.
  intros Hl Hr. apply sf_nonneg_not_nan.
  rewrite div_spec, add_spec.
  change (Prim2SF 2) with (S754_finite false 4503599627370496 (-51)).
  apply SFdiv_nonneg, SFadd_nonneg; now apply nonneg_sf.
Qed.

Lemma SFeqb_finite (x : spec_float) (s : bool) (m : positive) (e : Z) :
  SFeqb x (S754_finite s m e) = true -> x = S754_finite s m e.
Proof.
  unfold SFeqb.
  destruct x as [[]|[]| |[] mx ex], s; simpl; try discriminate;
    destruct (Z.compare_spec ex e) as [He|He|He]; try discriminate;
    change (PosDef.Pos.compare_cont Eq mx m) with (mx ?= m)%positive;
    destruct (Pos.compare_spec mx m) as [Hm|Hm|Hm]; try discriminate;
    intros _; now subst.
Qed.

(** [a == c] for a finite non-zero [c] leaves one value for [a]. *)
Lemma eqb_finite (a c : float) (s : bool) (m : positive) (e : Z) :
  Prim2SF c = S754_finite s m e -> (a =? c)%float = true -> a = c.
Proof.
  intros Hc H. rewrite eqb_spec, Hc in H. apply SFeqb_finite in H.
  rewrite <- (SF2Prim_Prim2SF a), <- (SF2Prim_Prim2SF c). congruence.
Qed.

End FloatOrder.

(* ================================================================== *)
(** * The scorer *)

Section ScorerFacts.
Import Scorer Spec.
Open Scope float_scope.

Ltac const_not_nan := unfold not_nan; vm_compute; discriminate.

Ltac by_trans H := eapply ltb_trans; [exact H | reflexivity].

Example assess_closed_and_yawning :
  assess_drowsiness 0.15 0.15 0.30
  = (100%Z, status_text VeryDrowsyAsleep,
     map indicator_text [EyesFullyClosed; WideYawn]).
Proof. vm_compute. reflexivity. Qed.

Example assess_wide_awake :
  assess_drowsiness 0.5 0.5 0.05 = (0%Z, status_text Alert, []).
Proof. vm_compute. reflexivity. Qed.

(** The mouth chain tests [>] against falling thresholds. *)
Lemma mouth_chain (m : float) :
  ((0.267 <? m) = true -> (0.167 <? m) = true)
  /\ ((0.167 <? m) = true -> (0.117 <? m) = true).
Proof.
  split; intros H.
  - apply (ltb_trans 0.167 0.267 m); [reflexivity | exact H].
  - apply (ltb_trans 0.117 0.167 m); [reflexivity | exact H].
Qed.

(** The eye chain tests [<] against rising thresholds. *)
Lemma eye_chain (a : float) :
  ((a <? 0.20) = true -> (a <? 0.293) = true)
  /\ ((a <? 0.293) = true -> (a <? 0.343) = true)
  /\ ((a <? 0.343) = true -> (a <? 0.393) = true)
  /\ ((a <? 0.393) = true -> (a <? 0.443) = true).
Proof. repeat split; intros H; by_trans H. Qed.

(** C1. For non-negative ratios the score is
    [min (eyePoints + mouthPoints) 100], where each contribution comes
    from the one band of its table that contains the value (the average
    of the two eye ratios, and the mouth ratio), the status is the first
    row of the status table that the score reaches, and the indicator
    texts are those of the two bands. *)
Theorem assess_drowsiness_bands (l r m : float) :
  nonneg l -> nonneg r -> nonneg m ->
  assess_drowsiness l r m
  = (Spec.score l r m,
     status_text (status_of_score (Spec.score l r m)),
     map indicator_text (Spec.indicators l r m))
  /\ (exists eb, matching eye_bands (avgEAR l r) = [eb]
                 /\ first_match eye_bands (avgEAR l r) = Some eb)
  /\ (exists mb, matching mouth_bands m = [mb]
                 /\ first_match mouth_bands m = Some mb).
Proof.
  intros Hl Hr Hm.
  pose proof (avg_not_nan l r Hl Hr) as Ha.
  apply nonneg_sf, sf_nonneg_not_nan in Hm.
  unfold assess_drowsiness, Spec.score, Spec.indicators, eyePoints,
    mouthPoints, first_match, matching, eye_bands, mouth_bands, avgEAR, gtb.
  set (a := (l + r) / 2) in *.
  cbn [find filter in_range points tag].
  rewrite (leb_negb_ltb a 0.20 Ha ltac:(const_not_nan)),
    (leb_negb_ltb a 0.293 Ha ltac:(const_not_nan)),
    (leb_negb_ltb a 0.343 Ha ltac:(const_not_nan)),
    (leb_negb_ltb a 0.393 Ha ltac:(const_not_nan)),
    (leb_negb_ltb a 0.443 Ha ltac:(const_not_nan)),
    (leb_negb_ltb 0.267 m ltac:(const_not_nan) Hm),
    (leb_negb_ltb 0.167 m ltac:(const_not_nan) Hm),
    (leb_negb_ltb 0.117 m ltac:(const_not_nan) Hm).
  destruct (eye_chain a) as (E12 & E23 & E34 & E45).
  destruct (mouth_chain m) as (M12 & M23).
  destruct (a <? 0.20), (a <? 0.293), (a <? 0.343), (a <? 0.393),
    (a <? 0.443);
    try discriminate (E12 eq_refl); try discriminate (E23 eq_refl);
    try discriminate (E34 eq_refl); try discriminate (E45 eq_refl);
    clear E12 E23 E34 E45;
    (destruct (0.267 <? m), (0.167 <? m), (0.117 <? m);
     try discriminate (M12 eq_refl); try discriminate (M23 eq_refl);
     clear M12 M23;
     cbn; (split; [reflexivity | split; eexists; split; reflexivity])).
Qed.

Lemma assess_drowsiness_bands_witness :
  nonneg 0.15 /\ nonneg 0.15 /\ nonneg 0.30
  /\ assess_drowsiness 0.15 0.15 0.30
     = (Spec.score 0.15 0.15 0.30,
        status_text (status_of_score (Spec.score 0.15 0.15 0.30)),
        map indicator_text (Spec.indicators 0.15 0.15 0.30))
  /\ (exists eb, matching eye_bands (avgEAR 0.15 0.15) = [eb]
                 /\ first_match eye_bands (avgEAR 0.15 0.15) = Some eb)
  /\ (exists mb, matching mouth_bands 0.30 = [mb]
                 /\ first_match mouth_bands 0.30 = Some mb).
Proof.
  refine (conj _ (conj _ (conj _
    (assess_drowsiness_bands 0.15 0.15 0.30 _ _ _))));
    reflexivity.
Defined.

(** C3, as the specification states it, evaluated at its own boundary:
    with both eye ratios 0.343 the average is exactly 0.343, the mouth
    ratio 0 adds nothing, and the scorer gives 25 points with the
    slightly-closing text, not 40 points with the partially-closed one. *)
Lemma boundary_0343_not_partially_closed :
  avgEAR 0.343 0.343 = 0.343
  /\ (0 <=? 0.117) = true
  /\ assess_drowsiness 0.343 0.343 0
     = (25%Z, status_text SlightlyDrowsy,
        [indicator_text EyesSlightlyClosing])
  /\ fst (fst (assess_drowsiness 0.343 0.343 0)) <> 40%Z
  /\ snd (assess_drowsiness 0.343 0.343 0)
     <> [indicator_text EyesPartiallyClosed].
Proof.
  repeat split; try (vm_compute; reflexivity);
    vm_compute; discriminate.
Qed.

(** C3, amended. When the average eye ratio equals 0.343 and the mouth
    ratio is at most 0.117, the scorer takes the slightly-closing band:
    25 points, status "Slightly Drowsy". *)
Theorem boundary_0343_slightly_closing (l r m : float) :
  (avgEAR l r =? 0.343) = true ->
  (m <=? 0.117) = true ->
  assess_drowsiness l r m
  = (25%Z, status_text SlightlyDrowsy, [indicator_text EyesSlightlyClosing]).
Proof.
  intros Ha Hm.
  apply (eqb_finite (avgEAR l r) 0.343 false 6178938688752321 (-54) eq_refl) in Ha.
  destruct (leb_not_nan _ _ Hm) as [Hm1 Hm2].
  rewrite (leb_negb_ltb 0.117 m Hm2 Hm1) in Hm.
  apply negb_true_iff in Hm.
  destruct (mouth_chain m) as (M12 & M23).
  unfold assess_drowsiness, gtb. unfold avgEAR in Ha. rewrite Ha.
  destruct (0.267 <? m), (0.167 <? m), (0.117 <? m);
    try discriminate Hm;
    try discriminate (M12 eq_refl); try discriminate (M23 eq_refl).
  vm_compute. reflexivity.
Qed.

Lemma boundary_0343_slightly_closing_witness :
  (avgEAR 0.343 0.343 =? 0.343) = true
  /\ (0 <=? 0.117) = true
  /\ assess_drowsiness 0.343 0.343 0
     = (25%Z, status_text SlightlyDrowsy,
        [indicator_text EyesSlightlyClosing]).
Proof.
  refine (conj _ (conj _ (boundary_0343_slightly_closing 0.343 0.343 0 _ _)));
    reflexivity.
Defined.

(** The partially-closed band is half open: it holds 0.293 and stops
    short of 0.343. *)
Lemma partially_closed_band (l r m : float) :
  (0.293 <=? avgEAR l r) = true ->
  (avgEAR l r <? 0.343) = true ->
  (m <=? 0.117) = true ->
  assess_drowsiness l r m
  = (40%Z, status_text SlightlyDrowsy, [indicator_text EyesPartiallyClosed]).
Proof.
  intros Hlo Hhi Hm.
  destruct (leb_not_nan _ _ Hlo) as [Hc Ha].
  rewrite (leb_negb_ltb _ _ Ha Hc) in Hlo. apply negb_true_iff in Hlo.
  destruct (leb_not_nan _ _ Hm) as [Hm1 Hm2].
  rewrite (leb_negb_ltb 0.117 m Hm2 Hm1) in Hm.
  apply negb_true_iff in Hm.
  destruct (mouth_chain m) as (M12 & M23).
  destruct (eye_chain (avgEAR l r)) as (E12 & _).
  unfold assess_drowsiness, gtb. unfold avgEAR in *.
  destruct ((l + r) / 2 <? 0.20), ((l + r) / 2 <? 0.293),
    ((l + r) / 2 <? 0.343);
    try discriminate Hlo; try discriminate Hhi;
    try discriminate (E12 eq_refl).
  destruct (0.267 <? m), (0.167 <? m), (0.117 <? m);
    try discriminate Hm;
    try discriminate (M12 eq_refl); try discriminate (M23 eq_refl).
  vm_compute. reflexivity.
Qed.

(** C8. The scorer is a function of its three arguments alone, and its
    score lies between 0 and 100 whatever they are. *)
Theorem assess_drowsiness_deterministic (l r m l' r' m' : float) :
  l = l' -> r = r' -> m = m' ->
  assess_drowsiness l r m = assess_drowsiness l' r' m'
  /\ (0 <= fst (fst (assess_drowsiness l r m)) <= 100)%Z.
Proof.
  intros -> -> ->. split; [reflexivity |].
  unfold assess_drowsiness, gtb.
  destruct ((l' + r') / 2 <? 0.20), ((l' + r') / 2 <? 0.293),
    ((l' + r') / 2 <? 0.343), ((l' + r') / 2 <? 0.393),
    ((l' + r') / 2 <? 0.443), (0.267 <? m'), (0.167 <? m'),
    (0.117 <? m'); cbn; lia.
Qed.

Lemma assess_drowsiness_deterministic_witness :
  assess_drowsiness 0.15 0.15 0.30 = assess_drowsiness 0.15 0.15 0.30
  /\ (0 <= fst (fst (assess_drowsiness 0.15 0.15 0.30)) <= 100)%Z.
Proof.
  exact (assess_drowsiness_deterministic 0.15 0.15 0.30 0.15 0.15 0.30
           eq_refl eq_refl eq_refl).
Defined.

(** C10. The indicator list holds at most one eye text and at most one
    mouth text, nothing else, so at most two entries, and it is empty
    exactly when the score is 0. *)
Theorem indicators_one_per_table (l r m : float) :
  let '(score, _, indicators) := assess_drowsiness l r m in
  (List.length (filter is_eye_text indicators) <= 1)%nat
  /\ (List.length (filter is_mouth_text indicators) <= 1)%nat
  /\ forallb (fun t => is_eye_text t || is_mouth_text t) indicators = true
  /\ (List.length indicators <= 2)%nat
  /\ (indicators = [] <-> score = 0%Z).
Proof.
  unfold assess_drowsiness, gtb.
  destruct ((l + r) / 2 <? 0.20), ((l + r) / 2 <? 0.293),
    ((l + r) / 2 <? 0.343), ((l + r) / 2 <? 0.393),
    ((l + r) / 2 <? 0.443), (0.267 <? m), (0.167 <? m), (0.117 <? m);
    vm_compute; repeat split; intros; try discriminate; try reflexivity;
    try congruence; repeat constructor.
Qed.

End ScorerFacts.

(* ================================================================== *)
(** * The feature extractor *)

Section FeatureFacts.
Import Features Spec.
Context {P : Platform}.
Open Scope float_scope.

Lemma getitem_at {A} (l : list A) (i : nat) (a : A) :
  nth_error l i = Some a -> getitem l i = Ok a.
Proof. unfold getitem. now intros ->. Qed.

Lemma getitem_in_range {A} (l : list A) (i : nat) :
  (i < List.length l)%nat -> exists a, getitem l i = Ok a.
Proof.
  intros H. unfold getitem.
  destruct (nth_error l i) as [a|] eqn:E; [now exists a |].
  apply nth_error_None in E. lia.
Qed.

(** The square of a float either is returned or fails with one of the
    two errors that [float_pow] raises. *)
Lemma pow2_cases (v : float) :
  (exists a, pow2 v = Ok a)
  \/ pow2 v = Raise OverflowError \/ pow2 v = Raise ValueError.
Proof.
  unfold pow2.
  destruct (is_nan v); [left; eexists; reflexivity |].
  destruct (is_infinity v); [left; eexists; reflexivity |].
  destruct (v =? 0); [left; eexists; reflexivity |].
  destruct (_ =? 1); [left; eexists; reflexivity |].
  destruct (libm_pow2 _) as [ix e].
  destruct (adjust_erange ix e); [left; eexists; reflexivity | tauto | tauto].
Qed.

(** What [calculate_distance] returns, when it returns, is the Euclidean
    distance in the plane; [z] plays no part. *)
Lemma calculate_distance_ok (p q : landmark) (d : float) :
  calculate_distance p q = Ok d <-> euclidean p q d.
Proof.
  unfold calculate_distance, euclidean. split.
  - destruct (pow2 (x p - x q)) as [a|]; cbn [rbind]; [| discriminate].
    destruct (pow2 (y p - y q)) as [b|]; cbn [rbind]; [| discriminate].
    intros [= <-]. now exists a, b.
  - intros (a & b & -> & -> & ->). reflexivity.
Qed.

(** It raises nothing but what squaring raises, and it raises whenever
    squaring one of the two differences does. *)
Lemma calculate_distance_raises (p q : landmark) (e : exn) :
  calculate_distance p q = Raise e <->
  pow2 (x p - x q) = Raise e
  \/ (succeeds (pow2 (x p - x q)) = true /\ pow2 (y p - y q) = Raise e).
Proof.
  unfold calculate_distance.
  destruct (pow2 (x p - x q)) as [a|e1]; cbn [rbind succeeds].
  - destruct (pow2 (y p - y q)) as [b|e2]; cbn [rbind].
    + split; [discriminate | intros [H|[_ H]]; discriminate H].
    + split; [intros H; right; now split | now intros [H|[_ H]]].
  - split; [now left | intros [H|[H _]]; [exact H | discriminate H]].
Qed.


(** The vertical distances are computed before the width is tested, so
    the eye ratio raises what they raise, also when the width is 0. *)
Lemma eye_ratio_raises_first
    (landmarks : list landmark)
    (i1 i2 i3 i4 i5 i6 : nat) (p1 p2 p3 p4 p5 p6 : landmark) (e : exn) :
  nth_error landmarks i1 = Some p1 -> nth_error landmarks i2 = Some p2 ->
  nth_error landmarks i3 = Some p3 -> nth_error landmarks i4 = Some p4 ->
  nth_error landmarks i5 = Some p5 -> nth_error landmarks i6 = Some p6 ->
  calculate_distance p2 p6 = Raise e ->
  calculate_eye_aspect_ratio [i1; i2; i3; i4; i5; i6] landmarks = Raise e.
Proof.
  intros H1 H2 H3 H4 H5 H6 D.
  unfold calculate_eye_aspect_ratio. cbn [getitem nth_error rbind].
  rewrite (getitem_at _ _ _ H1), (getitem_at _ _ _ H2),
    (getitem_at _ _ _ H3), (getitem_at _ _ _ H4),
    (getitem_at _ _ _ H5), (getitem_at _ _ _ H6).
  cbn [rbind]. now rewrite D.
Qed.

(** A finite value minus itself is plus zero. *)
Lemma sub_self_finite (a : float) : is_finite a = true -> a - a = 0.
Proof.
  intros Hf.
  rewrite <- (SF2Prim_Prim2SF (a - a)), sub_spec.
  unfold is_finite in Hf. apply negb_true_iff, orb_false_iff in Hf.
  destruct Hf as [Hn Hi].
  assert (H : SF64sub (Prim2SF a) (Prim2SF a) = S754_zero false);
    [| now rewrite H].
  unfold Prim2SF. rewrite Hn, Hi.
  destruct (is_zero a).
  - now destruct (get_sign a).
  - destruct (Z.frexp a) as [r e].
    destruct (shr_fexp _ _ _ _ _) as [mrs e'].
    destruct (shr_m mrs) as [|m|m]; try reflexivity.
    unfold SF64sub, SFsub. now rewrite Z.sub_diag.
Qed.

(** Degenerate geometry: two landmarks with the same finite coordinates
    are at distance 0 on every platform (the square of 0 is answered
    without the C library), so an eye whose corners coincide has ratio 0
    once its two heights are computed, and nothing is divided. *)
Lemma coinciding_points_distance (p q : landmark) :
  is_finite (x p) = true -> is_finite (y p) = true ->
  x q = x p -> y q = y p ->
  calculate_distance p q = Ok 0.
Proof.
  intros Hx Hy Ex Ey. unfold calculate_distance.
  rewrite Ex, Ey, (sub_self_finite _ Hx), (sub_self_finite _ Hy).
  reflexivity.
Qed.

Lemma coinciding_corners_ratio
    (landmarks : list landmark) (i1 i2 i3 i4 i5 i6 : nat)
    (p1 p2 p3 p4 p5 p6 : landmark) (d26 d35 : float) :
  nth_error landmarks i1 = Some p1 -> nth_error landmarks i2 = Some p2 ->
  nth_error landmarks i3 = Some p3 -> nth_error landmarks i4 = Some p4 ->
  nth_error landmarks i5 = Some p5 -> nth_error landmarks i6 = Some p6 ->
  calculate_distance p2 p6 = Ok d26 ->
  calculate_distance p3 p5 = Ok d35 ->
  is_finite (x p1) = true -> is_finite (y p1) = true ->
  x p4 = x p1 -> y p4 = y p1 ->
  calculate_eye_aspect_ratio [i1; i2; i3; i4; i5; i6] landmarks = Ok 0.
Proof.
  intros H1 H2 H3 H4 H5 H6 D26 D35 Fx Fy Ex Ey.
  unfold calculate_eye_aspect_ratio. cbn [getitem nth_error rbind].
  rewrite (getitem_at _ _ _ H1), (getitem_at _ _ _ H2),
    (getitem_at _ _ _ H3), (getitem_at _ _ _ H4),
    (getitem_at _ _ _ H5), (getitem_at _ _ _ H6).
  cbn [rbind].
  rewrite D26, D35, (coinciding_points_distance p1 p4 Fx Fy Ex Ey).
  reflexivity.
Qed.

(** A face mesh of more than 386 points covers every index that is
    read: no ratio fails on an index. *)
Lemma ratios_index_free (landmarks : list landmark) :
  (386 < List.length landmarks)%nat ->
  calculate_eye_aspect_ratio left_eye_landmarks landmarks <> Raise IndexError
  /\ calculate_eye_aspect_ratio right_eye_landmarks landmarks
     <> Raise IndexError
  /\ calculate_mouth_aspect_ratio mouth_landmarks landmarks
     <> Raise IndexError.
Proof.
  intros H.
  assert (G : forall i, (i <= 386)%nat -> exists a, getitem landmarks i = Ok a)
    by (intros i Hi; apply getitem_in_range; lia).
  assert (D : forall p q, calculate_distance p q <> Raise IndexError).
  { intros p q Hd. apply calculate_distance_raises in Hd.
    destruct (pow2_cases (x p - x q)) as [[a Ha]|[Ha|Ha]],
      (pow2_cases (y p - y q)) as [[b Hb]|[Hb|Hb]];
      destruct Hd as [Hd|[_ Hd]]; congruence. }
  unfold calculate_eye_aspect_ratio, calculate_mouth_aspect_ratio,
    left_eye_landmarks, right_eye_landmarks, mouth_landmarks.
  cbn [getitem nth_error rbind].
  destruct (G 33%nat) as [a1 ->]; [lia|].
  destruct (G 160%nat) as [a2 ->]; [lia|].
  destruct (G 159%nat) as [a3 ->]; [lia|].
  destruct (G 133%nat) as [a4 ->]; [lia|].
  destruct (G 145%nat) as [a5 ->]; [lia|].
  destruct (G 144%nat) as [a6 ->]; [lia|].
  destruct (G 362%nat) as [b1 ->]; [lia|].
  destruct (G 385%nat) as [b2 ->]; [lia|].
  destruct (G 386%nat) as [b3 ->]; [lia|].
  destruct (G 263%nat) as [b4 ->]; [lia|].
  destruct (G 374%nat) as [b5 ->]; [lia|].
  destruct (G 373%nat) as [b6 ->]; [lia|].
  destruct (G 61%nat) as [c1 ->]; [lia|].
  destruct (G 13%nat) as [c2 ->]; [lia|].
  destruct (G 291%nat) as [c3 ->]; [lia|].
  destruct (G 14%nat) as [c4 ->]; [lia|].
  cbn [rbind].
  repeat split;
    repeat match goal with
           | |- context [rbind (calculate_distance ?p ?q) _] =>
               let E := fresh "E" in
               destruct (calculate_distance p q) eqn:E; cbn [rbind];
               [| intros [= ->]; exact (D _ _ E)]
           end;
    destruct (_ =? 0); discriminate.
Qed.

End FeatureFacts.

(* ================================================================== *)
(** * The feature extractor on the example platform *)

Section FeatureExamples.
Import Features Spec.
#[local] Existing Instance reference_platform.
Open Scope float_scope.



(** Degenerate geometry: coinciding corners give ratio 0. *)
Example degenerate_eye_is_zero :
  calculate_eye_aspect_ratio left_eye_landmarks
    (repeat (mkLandmark 0.5 0.5 0) 468) = Ok 0
  /\ calculate_mouth_aspect_ratio mouth_landmarks
       (repeat (mkLandmark 0.5 0.5 0) 468) = Ok 0.
Proof. split; vm_compute; reflexivity. Qed.

End FeatureExamples.

Section SessionFacts.
Import Frame Session.
Context {P : Platform}.
Open Scope Z_scope.

Lemma camera_frame_effect (f : frame) (now : float) (s : gui) :
  let sc := frame_score f in
  let d' := if sc >=? 65 then drowsy_frames s + 1 else 0 in
  let fire := (sc >=? 65) && (d' >=? alert_threshold s)
              && (now - last_alert_time s >? alert_cooldown s)%float in
  let r := camera_frame f now s in
  outcome_of r = Ok tt
  /\ drowsy_frames (state_of r) = d'
  /\ drowsy_detections (state_of r)
     = (if sc >=? 45 then drowsy_detections s + 1 else drowsy_detections s)
  /\ current_frame_num (state_of r) = current_frame_num s + 1
  /\ last_alert_time (state_of r) = (if fire then now else last_alert_time s)
  /\ alerts_fired (events_of r) = (if fire then 1%nat else 0%nat)
  /\ same_config s (state_of r).
Proof.
  unfold camera_frame, trigger_camera_alert, frame_score, score_of,
    same_config, gtb.
  destruct (analyze_frame f) as [[[[[sc st] ind] le] re] ma].
  cbv [bind gets modify emit ret]. cbv zeta.
  destruct (sc >=? 65), (sc >=? 45); cbn;
    try (destruct (drowsy_frames s + 1 >=? alert_threshold s); cbn;
         try destruct (alert_cooldown s <? now - last_alert_time s)%float;
         cbn);
    repeat split; reflexivity.
Qed.

Lemma geb_true (x y : Z) : x >= y -> (x >=? y) = true.
Proof. intros H. rewrite Z.geb_leb. apply Z.leb_le. lia. Qed.

Lemma geb_false (x y : Z) : x < y -> (x >=? y) = false.
Proof. intros H. rewrite Z.geb_leb. apply Z.leb_gt. lia. Qed.

Lemma alerts_fired_app (ev1 ev2 : list event) :
  alerts_fired (ev1 ++ ev2) = (alerts_fired ev1 + alerts_fired ev2)%nat.
Proof. unfold alerts_fired. now rewrite filter_app, length_app. Qed.

Lemma same_config_refl (s : gui) : same_config s s.
Proof. unfold same_config. tauto. Qed.

Lemma same_config_trans (s1 s2 s3 : gui) :
  same_config s1 s2 -> same_config s2 s3 -> same_config s1 s3.
Proof.
  unfold same_config.
  intros (A1 & A2 & A3 & A4 & A5 & A6 & A7) (B1 & B2 & B3 & B4 & B5 & B6 & B7).
  repeat split; congruence.
Qed.

(** One turn of the camera loop, while the camera is active. *)
Lemma _camera_loop_step (f : frame) (t : float)
    (rest : list (option frame * float)) (s : gui) :
  camera_active s = true ->
  let r1 := camera_frame f t s in
  let r2 := _camera_loop rest (state_of r1) in
  _camera_loop ((Some f, t) :: rest) s
  = (outcome_of r2, state_of r2, events_of r1 ++ events_of r2).
Proof.
  intros Ha. cbn [_camera_loop]. unfold bind at 1. unfold gets at 1.
  rewrite Ha. cbn [negb app]. unfold bind at 1.
  destruct (camera_frame_effect f t s) as (Ho & _).
  destruct (camera_frame f t s) as [[o s1] ev1].
  unfold outcome_of in Ho. cbn in Ho. subst o. cbn.
  destruct (_camera_loop rest s1) as [[o2 s2] ev2]. reflexivity.
Qed.

Lemma is_drowsy_read_inv (rd : option frame * float) :
  is_drowsy_read rd = true ->
  exists f t, rd = (Some f, t) /\ (frame_score f >=? 65) = true.
Proof.
  destruct rd as [[f|] t]; unfold is_drowsy_read; cbn; intros H;
    [now exists f, t | discriminate].
Qed.

(** Drowsy frames fire nothing as long as the counter stays below the
    threshold, or as long as the clock stays within the cooldown. *)
Lemma quiet_reads (reads : list (option frame * float)) :
  forall s : gui,
    camera_active s = true ->
    forallb is_drowsy_read reads = true ->
    drowsy_frames s + Z.of_nat (List.length reads) < alert_threshold s
    \/ forallb (in_cooldown (last_alert_time s) (alert_cooldown s)) reads
       = true ->
    let r := _camera_loop reads s in
    alerts_fired (events_of r) = 0%nat
    /\ drowsy_frames (state_of r)
       = drowsy_frames s + Z.of_nat (List.length reads)
    /\ last_alert_time (state_of r) = last_alert_time s
    /\ same_config s (state_of r).
Proof.
  induction reads as [|rd rest IH]; intros s Ha Hd Hq.
  - cbn. repeat split; first [lia | reflexivity].
  - cbn [forallb] in Hd. apply andb_true_iff in Hd as [Hd Hrest].
    destruct (is_drowsy_read_inv rd Hd) as (f & t & -> & Hsc).
    cbv zeta. rewrite (_camera_loop_step f t rest s Ha).
    destruct (camera_frame_effect f t s)
      as (_ & Hdf & _ & _ & Hlast & Hfire & Hcfg).
    rewrite Hsc in Hdf, Hlast, Hfire. cbn [andb] in Hlast, Hfire.
    assert (Hno : (drowsy_frames s + 1 >=? alert_threshold s)
                  && (t - last_alert_time s >? alert_cooldown s)%float
                  = false).
    { destruct Hq as [Hlt | Hcd].
      - cbn [List.length] in Hlt.
        rewrite (geb_false (drowsy_frames s + 1) (alert_threshold s));
          [reflexivity | lia].
      - cbn [forallb] in Hcd. apply andb_true_iff in Hcd as [Hcd _].
        unfold in_cooldown in Hcd. cbn [snd] in Hcd.
        apply negb_true_iff in Hcd. rewrite Hcd. apply andb_false_r. }
    rewrite Hno in Hlast, Hfire.
    set (s1 := state_of (camera_frame f t s)) in *.
    assert (Ha1 : camera_active s1 = true)
      by (destruct Hcfg as (_ & _ & -> & _); exact Ha).
    destruct (IH s1 Ha1 Hrest) as (I1 & I2 & I3 & I4).
    { destruct Hq as [Hlt | Hcd].
      - left. destruct Hcfg as (-> & _). rewrite Hdf.
        cbn [List.length] in Hlt. lia.
      - right. destruct Hcfg as (_ & -> & _). rewrite Hlast.
        cbn [forallb] in Hcd. now apply andb_true_iff in Hcd as [_ Hcd]. }
    unfold events_of, state_of in *. cbn [fst snd] in *.
    rewrite alerts_fired_app, Hfire, I1, I2, I3, Hdf, Hlast.
    split; [reflexivity |].
    split; [cbn [List.length]; lia |].
    split; [reflexivity |].
    exact (same_config_trans _ _ _ Hcfg I4).
Qed.

(** A drowsy frame that brings the counter to the threshold while the
    cooldown is over fires one alert and restarts the cooldown. *)
Lemma firing_read (f : frame) (t : float) (s : gui) :
  camera_active s = true ->
  is_drowsy_read (at_time f t) = true ->
  drowsy_frames s + 1 >= alert_threshold s ->
  (t - last_alert_time s >? alert_cooldown s)%float = true ->
  let r := _camera_loop [at_time f t] s in
  alerts_fired (events_of r) = 1%nat
  /\ drowsy_frames (state_of r) = drowsy_frames s + 1
  /\ last_alert_time (state_of r) = t
  /\ same_config s (state_of r).
Proof.
  intros Ha Hd Hth Hcd. unfold at_time in *.
  unfold is_drowsy_read in Hd. cbn [fst] in Hd.
  cbv zeta. rewrite (_camera_loop_step f t [] s Ha).
  destruct (camera_frame_effect f t s)
    as (_ & Hdf & _ & _ & Hlast & Hfire & Hcfg).
  rewrite Hd in Hdf, Hlast, Hfire. rewrite Hcd in Hlast, Hfire.
  rewrite (geb_true (drowsy_frames s + 1) (alert_threshold s) Hth)
    in Hlast, Hfire.
  cbn [andb] in Hlast, Hfire.
  unfold events_of, state_of in *. cbn [fst snd _camera_loop ret] in *.
  rewrite alerts_fired_app, Hfire.
  split; [reflexivity |]. split; [exact Hdf |].
  split; [exact Hlast | exact Hcfg].
Qed.

(** The loop over two batches of delivered frames is the loop over the
    first followed by the loop over the second. *)
Lemma _camera_loop_app (a b : list (option frame * float)) :
  forall s : gui,
    camera_active s = true ->
    forallb is_drowsy_read a = true ->
    let r1 := _camera_loop a s in
    let r2 := _camera_loop b (state_of r1) in
    _camera_loop (a ++ b) s
    = (outcome_of r2, state_of r2, events_of r1 ++ events_of r2).
Proof.
  induction a as [|rd rest IH]; intros s Ha Hd.
  - cbn. now destruct (_camera_loop b s) as [[o2 s2] ev2].
  - cbn [forallb] in Hd. apply andb_true_iff in Hd as [Hd Hrest].
    destruct (is_drowsy_read_inv rd Hd) as (f & t & -> & _).
    cbv zeta. rewrite <- app_comm_cons.
    rewrite !(_camera_loop_step f t _ s Ha).
    destruct (camera_frame_effect f t s) as (_ & _ & _ & _ & _ & _ & Hcfg).
    set (s1 := state_of (camera_frame f t s)) in *.
    assert (Ha1 : camera_active s1 = true)
      by (destruct Hcfg as (_ & _ & -> & _); exact Ha).
    rewrite (IH s1 Ha1 Hrest).
    unfold events_of, state_of, outcome_of. cbn [fst snd].
    now rewrite app_assoc.
Qed.

(** What a camera frame reports to the panel is the analysis of that
    frame, whatever the session state is. *)
Lemma camera_frame_reports_analysis (f : frame) (now : float) (s : gui) :
  last (events_of (camera_frame f now s)) ShowError
  = (let '(score, status, indicators, left_ear, right_ear, mar) :=
       analyze_frame f in
     After 0 (UpdateResults status score left_ear right_ear mar indicators)).
Proof.
  unfold camera_frame, trigger_camera_alert, gtb.
  destruct (analyze_frame f) as [[[[[sc st] ind] le] re] ma].
  cbv [bind gets modify emit ret]. cbv zeta.
  destruct (sc >=? 65), (sc >=? 45); cbn;
    try (destruct (drowsy_frames s + 1 >=? alert_threshold s); cbn;
         try destruct (alert_cooldown s <? now - last_alert_time s)%float;
         cbn);
    reflexivity.
Qed.

(** C2. In a camera session with the default threshold of 30 frames and
    cooldown of 5 seconds, starting with the counter at 0: 29 consecutive
    frames scoring at least 65 fire no alert; the 30th fires exactly one
    (the clock being more than the cooldown past the last alert time,
    which is 0 in a fresh session); 30 more such frames whose clock is
    within the cooldown of that alert fire none; and the next such frame
    after the cooldown fires exactly one more. The whole run fires two. *)
Theorem alert_debounce
    (s : gui) (first29 next30 : list (option frame * float))
    (f30 f61 : frame) (t30 t61 : float) :
  camera_active s = true ->
  alert_threshold s = 30 ->
  alert_cooldown s = 5%float ->
  drowsy_frames s = 0 ->
  List.length first29 = 29%nat ->
  forallb is_drowsy_read first29 = true ->
  is_drowsy_read (at_time f30 t30) = true ->
  (t30 - last_alert_time s >? 5)%float = true ->
  List.length next30 = 30%nat ->
  forallb is_drowsy_read next30 = true ->
  forallb (in_cooldown t30 5) next30 = true ->
  is_drowsy_read (at_time f61 t61) = true ->
  (t61 - t30 >? 5)%float = true ->
  let r1 := _camera_loop first29 s in
  let r2 := _camera_loop [at_time f30 t30] (state_of r1) in
  let r3 := _camera_loop next30 (state_of r2) in
  let r4 := _camera_loop [at_time f61 t61] (state_of r3) in
  alerts_fired (events_of r1) = 0%nat
  /\ alerts_fired (events_of r2) = 1%nat
  /\ alerts_fired (events_of r3) = 0%nat
  /\ alerts_fired (events_of r4) = 1%nat
  /\ events_of
       (_camera_loop
          (first29 ++ [at_time f30 t30] ++ next30 ++ [at_time f61 t61]) s)
     = events_of r1 ++ events_of r2 ++ events_of r3 ++ events_of r4.
Proof.
  intros Ha Hth Hcd Hdf L1 D1 D30 C30 L2 D2 C2 D61 C61.
  cbv zeta.
  destruct (quiet_reads first29 s Ha D1) as (A1 & A2 & A3 & A4);
    [left; lia |].
  set (s1 := state_of (_camera_loop first29 s)) in *.
  destruct A4 as (T1 & K1 & Act1 & _).
  assert (Ha1 : camera_active s1 = true) by congruence.
  destruct (firing_read f30 t30 s1 Ha1 D30) as (B1 & B2 & B3 & B4);
    [lia | rewrite A3, K1, Hcd; exact C30 |].
  set (s2 := state_of (_camera_loop [at_time f30 t30] s1)) in *.
  destruct B4 as (T2 & K2 & Act2 & _).
  assert (Ha2 : camera_active s2 = true) by congruence.
  destruct (quiet_reads next30 s2 Ha2 D2) as (E1 & E2 & E3 & E4);
    [right; rewrite B3, K2, K1, Hcd; exact C2 |].
  set (s3 := state_of (_camera_loop next30 s2)) in *.
  destruct E4 as (T3 & K3 & Act3 & _).
  assert (Ha3 : camera_active s3 = true) by congruence.
  destruct (firing_read f61 t61 s3 Ha3 D61) as (F1 & _);
    [lia | rewrite E3, B3, K3, K2, K1, Hcd; exact C61 |].
  repeat (split; [assumption |]).
  assert (D30' : forallb is_drowsy_read [at_time f30 t30] = true)
    by (cbn [forallb]; rewrite D30; reflexivity).
  rewrite (_camera_loop_app first29 _ s Ha D1). unfold events_of at 1.
  cbn [snd]. fold s1. f_equal.
  rewrite (_camera_loop_app [at_time f30 t30] _ s1 Ha1 D30').
  unfold events_of at 1. cbn [snd]. fold s2. f_equal.
  rewrite (_camera_loop_app next30 _ s2 Ha2 D2).
  unfold events_of at 1. cbn [snd]. reflexivity.
Qed.

(** The scorer only returns its five own statuses. *)
Lemma assess_status_known (l r m : float) :
  In (snd (fst (Scorer.assess_drowsiness l r m)))
     (map Spec.status_text
        [Spec.VeryDrowsyAsleep; Spec.Drowsy; Spec.SlightlyDrowsy;
         Spec.MildlyTired; Spec.Alert]).
Proof.
  unfold Scorer.assess_drowsiness.
  destruct (if (_ <? 0.20)%float then _ else _) as [s0 i0].
  destruct (if (m >? 0.267)%float then _ else _) as [s1 i1].
  cbn [fst snd map Spec.status_text].
  destruct (Z.min s1 100 >=? 65); [cbn; tauto |].
  destruct (Z.min s1 100 >=? 45); [cbn; tauto |].
  destruct (Z.min s1 100 >=? 25); [cbn; tauto |].
  destruct (Z.min s1 100 >=? 10); cbn; tauto.
Qed.

(** A frame reported as "No Face" or "Error" scores 0. *)
Lemma no_detection_scores_zero (f : frame) :
  no_detection (analyze_frame f) = true -> frame_score f = 0.
Proof.
  unfold frame_score, no_detection, analyze_frame, analyze_frame_try.
  destruct f as [sh [[|landmarks faces]|e]]; cbn [detection shape rbind];
    try reflexivity.
  destruct (Features.calculate_eye_aspect_ratio Features.left_eye_landmarks _)
    as [l|]; cbn [rbind]; try reflexivity.
  destruct (Features.calculate_eye_aspect_ratio Features.right_eye_landmarks _)
    as [r|]; cbn [rbind]; try reflexivity.
  destruct (Features.calculate_mouth_aspect_ratio _ _)
    as [m|]; cbn [rbind]; try reflexivity.
  pose proof (assess_status_known l r m) as Hs.
  destruct (Scorer.assess_drowsiness l r m) as [[sc st] ind].
  destruct (draw_landmarks _ _ _ _ _ _) as [u|]; cbn [rbind];
    try reflexivity.
  cbn [fst snd status_of score_of] in *.
  cbn in Hs.
  destruct Hs as [<-|[<-|[<-|[<-|[<-|[]]]]]]; cbn; discriminate.
Qed.

(** C5. In camera mode every processed frame adds one to
    [drowsy_detections] exactly when its score is at least 45, and sets
    the consecutive counter [drowsy_frames] to one more when the score is
    at least 65 and to 0 otherwise; a frame reported as
    "No Face" or "Error" scores 0, so it resets the consecutive counter,
    leaves [drowsy_detections] alone and fires nothing. *)
Theorem camera_frame_counters (f : frame) (now : float) (s : gui) :
  let sc := frame_score f in
  let r := camera_frame f now s in
  current_frame_num (state_of r) = current_frame_num s + 1
  /\ drowsy_detections (state_of r)
     = (if sc >=? 45 then drowsy_detections s + 1 else drowsy_detections s)
  /\ drowsy_frames (state_of r)
     = (if sc >=? 65 then drowsy_frames s + 1 else 0)
  /\ (no_detection (analyze_frame f) = true ->
      sc = 0
      /\ drowsy_frames (state_of r) = 0
      /\ drowsy_detections (state_of r) = drowsy_detections s
      /\ alerts_fired (events_of r) = 0%nat).
Proof.
  cbv zeta.
  destruct (camera_frame_effect f now s)
    as (_ & Hdf & Hdd & Hn & _ & Hfire & _).
  repeat (split; [assumption |]).
  intros Hnd. apply no_detection_scores_zero in Hnd.
  rewrite Hnd in *. cbn in Hdf, Hdd, Hfire. auto.
Qed.

(** One turn of the playback loop. *)
Lemma video_frame_effect (f : frame) (s : gui) :
  let sc := frame_score f in
  let r := video_frame f s in
  outcome_of r = Ok tt
  /\ drowsy_detections (state_of r)
     = (if sc >=? 45 then drowsy_detections s + 1 else drowsy_detections s)
  /\ drowsy_frames (state_of r)
     = (if sc >=? 65 then drowsy_frames s + 1 else drowsy_frames s)
  /\ current_frame_num (state_of r) = current_frame_num s + 1
  /\ last_alert_time (state_of r) = last_alert_time s
  /\ alerts_fired (events_of r) = 0%nat
  /\ same_config s (state_of r).
Proof.
  unfold video_frame, frame_score, score_of, same_config.
  destruct (analyze_frame f) as [[[[[sc st] ind] le] re] ma].
  cbv [bind gets modify emit ret]. cbv zeta.
  destruct (sc >=? 45) eqn:E45, (sc >=? 65) eqn:E65; cbn;
    repeat split; try reflexivity.
  rewrite Z.geb_leb in E45, E65.
  apply Z.leb_gt in E45. apply Z.leb_le in E65. lia.
Qed.

(** The test of the playback loop. *)
Lemma _play_video_thread_cons (rd : option frame) (rest : list (option frame))
    (s : gui) :
  _play_video_thread (rd :: rest) s
  = if is_playing s && video_capture s then
      match rd with
      | None => (Ok tt, s, [After 0 OnVideoEnd])
      | Some f => (video_frame f ;; _play_video_thread rest) s
      end
    else (Ok tt, s, []).
Proof.
  cbn [_play_video_thread]. unfold bind at 1 2. unfold gets at 1 2.
  cbn [app]. destruct (is_playing s && video_capture s); cbn [negb].
  - destruct rd as [f|]; [| reflexivity].
    now destruct ((video_frame f ;; _play_video_thread rest) s) as [[o s'] ev].
  - reflexivity.
Qed.

Lemma _play_video_thread_step (f : frame) (rest : list (option frame))
    (s : gui) :
  is_playing s = true ->
  video_capture s = true ->
  let r1 := video_frame f s in
  let r2 := _play_video_thread rest (state_of r1) in
  _play_video_thread (Some f :: rest) s
  = (outcome_of r2, state_of r2, events_of r1 ++ events_of r2).
Proof.
  intros Hp Hc. rewrite _play_video_thread_cons, Hp, Hc. cbn [andb].
  unfold bind at 1.
  destruct (video_frame_effect f s) as (Ho & _).
  destruct (video_frame f s) as [[o s1] ev1].
  unfold outcome_of in Ho. cbn in Ho. subst o. cbn.
  destruct (_play_video_thread rest s1) as [[o2 s2] ev2]. reflexivity.
Qed.

Lemma last_app_nonempty {A} (l1 l2 : list A) (d : A) :
  l2 <> [] -> last (l1 ++ l2) d = last l2 d.
Proof.
  intros H. induction l1 as [|a l1 IH]; [reflexivity |].
  cbn [app]. destruct (l1 ++ l2) eqn:E.
  - apply app_eq_nil in E as [_ E]. contradiction.
  - rewrite <- IH. reflexivity.
Qed.

Lemma count_scoring_cons (bound : Z) (f : frame) (fs : list frame) :
  count_scoring bound (f :: fs)
  = (if frame_score f >=? bound then 1 else 0) + count_scoring bound fs.
Proof.
  unfold count_scoring. cbn [filter].
  destruct (frame_score f >=? bound); cbn [List.length]; lia.
Qed.

(** Playback up to the end of the stream: both counters only grow, by
    the number of frames that reach their bound, and no alert fires. *)
Lemma playback_run (fs : list frame) :
  forall s : gui,
    is_playing s = true ->
    video_capture s = true ->
    let r := _play_video_thread (map Some fs ++ [None]) s in
    drowsy_detections (state_of r)
    = drowsy_detections s + count_scoring 45 fs
    /\ drowsy_frames (state_of r) = drowsy_frames s + count_scoring 65 fs
    /\ current_frame_num (state_of r)
       = current_frame_num s + Z.of_nat (List.length fs)
    /\ last_alert_time (state_of r) = last_alert_time s
    /\ alerts_fired (events_of r) = 0%nat
    /\ last (events_of r) ShowError = After 0 OnVideoEnd
    /\ same_config s (state_of r).
Proof.
  induction fs as [|f fs IH]; intros s Hp Hc.
  - cbn [map app]. rewrite _play_video_thread_cons, Hp, Hc.
    cbn. repeat split; first [lia | reflexivity].
  - cbv zeta. cbn [map app]. rewrite (_play_video_thread_step f _ s Hp Hc).
    destruct (video_frame_effect f s)
      as (_ & Hdd & Hdf & Hn & Hlast & Hfire & Hcfg).
    set (s1 := state_of (video_frame f s)) in *.
    assert (Hp1 : is_playing s1 = true)
      by (destruct Hcfg as (_ & _ & _ & -> & _); exact Hp).
    assert (Hc1 : video_capture s1 = true)
      by (destruct Hcfg as (_ & _ & _ & _ & _ & _ & ->); exact Hc).
    destruct (IH s1 Hp1 Hc1) as (I1 & I2 & I3 & I4 & I5 & I6 & I7).
    unfold events_of, state_of in *. cbn [fst snd] in *.
    rewrite !count_scoring_cons, alerts_fired_app, Hfire, I1, I2, I3, I4, I5,
      Hdd, Hdf, Hn, Hlast.
    split; [destruct (frame_score f >=? 45); lia |].
    split; [destruct (frame_score f >=? 65); lia |].
    split; [cbn [List.length]; lia |].
    split; [reflexivity |].
    split; [reflexivity |].
    split; [| exact (same_config_trans _ _ _ Hcfg I7)].
    destruct (snd (_play_video_thread (map Some fs ++ [None]) s1))
      as [|e es] eqn:E; [discriminate I6 |].
    rewrite last_app_nonempty; [exact I6 | discriminate].
Qed.

(** The summary that [on_video_end] shows once frames were counted. *)
Lemma on_video_end_summary (s : gui) :
  0 < total_frames s ->
  current_frame_num s <> 0 ->
  video_capture s = true ->
  let r := on_video_end s in
  outcome_of r = Ok tt
  /\ events_of r
     = [ShowInfo (current_frame_num s) (drowsy_detections s)
          (Spec.percentage (drowsy_detections s) (current_frame_num s))
          (drowsy_frames s)]
  /\ drowsy_frames (state_of r) = drowsy_frames s
  /\ drowsy_detections (state_of r) = drowsy_detections s.
Proof.
  destruct s as [ft pl tot num ca th cd la df dd fl dl pc vc].
  cbn [total_frames current_frame_num video_capture]. intros Ht Hn ->.
  destruct tot as [|q|q]; try lia.
  destruct num as [|p|p]; try lia; repeat split; reflexivity.
Qed.

(** Without a frame count from the container [on_video_end] shows
    nothing, whatever was counted. *)
Lemma on_video_end_silent (s : gui) :
  total_frames s <= 0 ->
  video_capture s = true ->
  let r := on_video_end s in
  outcome_of r = Ok tt
  /\ events_of r = []
  /\ drowsy_frames (state_of r) = drowsy_frames s
  /\ drowsy_detections (state_of r) = drowsy_detections s.
Proof.
  destruct s as [ft pl tot num ca th cd la df dd fl dl pc vc].
  cbn [total_frames video_capture]. intros Ht ->.
  destruct tot as [|q|q]; try lia; repeat split; reflexivity.
Qed.

(** C6, on the code. In playback every processed frame adds one to
    [drowsy_detections] exactly when its score is at least 45 and one to
    [drowsy_frames] exactly when its score is at least 65. Over a whole
    playback the second counter is never set back: it ends at its start
    value plus the number of frames scoring at least 65, and no alert
    fires on the way. At the end of the stream [on_video_end] reports
    that counter as the very-drowsy count of its summary when the frame
    count that the container announced is positive, and shows no summary
    at all when that count is 0 or negative, however many frames were
    played and counted: its guard reads [total_frames], as in C7, where
    the frames were counted in [current_frame_num]. *)
Theorem playback_counters_and_summary
    (f : frame) (fs : list frame) (s : gui) :
  is_playing s = true ->
  video_capture s = true ->
  0 <= current_frame_num s ->
  let r1 := video_frame f s in
  let r := _play_video_thread (map Some (f :: fs) ++ [None]) s in
  let fin := on_video_end (state_of r) in
  (drowsy_detections (state_of r1)
   = (if frame_score f >=? 45 then drowsy_detections s + 1
      else drowsy_detections s)
   /\ drowsy_frames (state_of r1)
      = (if frame_score f >=? 65 then drowsy_frames s + 1
         else drowsy_frames s))
  /\ current_frame_num (state_of r)
     = current_frame_num s + Z.of_nat (List.length (f :: fs))
  /\ drowsy_detections (state_of r)
     = drowsy_detections s + count_scoring 45 (f :: fs)
  /\ drowsy_frames (state_of r)
     = drowsy_frames s + count_scoring 65 (f :: fs)
  /\ alerts_fired (events_of r) = 0%nat
  /\ last_alert_time (state_of r) = last_alert_time s
  /\ last (events_of r) ShowError = After 0 OnVideoEnd
  /\ outcome_of fin = Ok tt
  /\ events_of fin
     = (if total_frames s >? 0 then
          [ShowInfo (current_frame_num s + Z.of_nat (List.length (f :: fs)))
             (drowsy_detections s + count_scoring 45 (f :: fs))
             (Spec.percentage
                (drowsy_detections s + count_scoring 45 (f :: fs))
                (current_frame_num s + Z.of_nat (List.length (f :: fs))))
             (drowsy_frames s + count_scoring 65 (f :: fs))]
        else [])
  /\ drowsy_frames (state_of fin)
     = drowsy_frames s + count_scoring 65 (f :: fs).
Proof.
  intros Hp Hc Hn. cbv zeta.
  destruct (video_frame_effect f s) as (_ & Hdd & Hdf & _).
  destruct (playback_run (f :: fs) s Hp Hc)
    as (R1 & R2 & R3 & R4 & R5 & R6 & R7).
  set (s' := state_of (_play_video_thread (map Some (f :: fs) ++ [None]) s))
    in *.
  destruct R7 as (_ & _ & _ & _ & _ & Rtot & Rcap).
  rewrite Hc in Rcap.
  split; [split; assumption |].
  do 6 (split; [assumption |]).
  destruct (total_frames s >? 0) eqn:Ht.
  - apply Z.gtb_lt in Ht.
    destruct (on_video_end_summary s') as (S1 & S2 & S3 & _);
      [rewrite Rtot; exact Ht | rewrite R3; cbn [List.length]; lia
      | exact Rcap |].
    rewrite S1, S2, S3, R1, R2, R3. repeat split; reflexivity.
  - rewrite Z.gtb_ltb in Ht. apply Z.ltb_ge in Ht.
    destruct (on_video_end_silent s') as (S1 & S2 & S3 & _);
      [rewrite Rtot; exact Ht | exact Rcap |].
    rewrite S1, S2, S3, R2. repeat split; reflexivity.
Qed.

(** The result panel: [update_results] never divides by zero. It shows
    the percentage of section 4.4 when its frame count is positive and
    leaves the label as it is otherwise ([reset_results] has put 0 there
    when the session started). *)
Lemma update_results_percentage (s : gui) :
  let analyzed :=
    if is_video (file_type s) then current_frame_num s else total_frames s in
  let r := update_results s in
  outcome_of r = Ok tt
  /\ frames_label (state_of r) = analyzed
  /\ detections_label (state_of r) = drowsy_detections s
  /\ percentage_label (state_of r)
     = (if analyzed >? 0
        then Spec.percentage (drowsy_detections s) analyzed
        else percentage_label s).
Proof.
  unfold update_results, Spec.percentage, truediv.
  cbv [bind gets modify emit ret lift]. cbn.
  set (analyzed := if is_video (file_type s) then _ else _).
  destruct (analyzed >? 0) eqn:E; cbn; [| repeat split; reflexivity].
  apply Z.gtb_lt in E.
  replace (analyzed =? 0) with false by (symmetry; apply Z.eqb_neq; lia).
  cbn. repeat split; reflexivity.
Qed.

(** In a camera session the panel counts [total_frames], which the
    camera loop never touches, so the percentage label is never set. *)
Lemma update_results_camera (s : gui) :
  file_type s = Some Camera ->
  total_frames s = 0 ->
  percentage_label (state_of (update_results s)) = percentage_label s
  /\ frames_label (state_of (update_results s)) = 0.
Proof.
  intros Hft Ht.
  destruct (update_results_percentage s) as (_ & Hf & _ & Hp).
  rewrite Hft in Hf, Hp. cbn [is_video] in Hf, Hp. rewrite Ht in Hf, Hp.
  cbn in Hp. split; assumption.
Qed.

(** [on_video_end] guards its division with [total_frames], not with the
    frame counter it divides by. *)
Lemma on_video_end_unguarded (s : gui) :
  0 < total_frames s ->
  current_frame_num s = 0 ->
  outcome_of (on_video_end s) = Raise ZeroDivisionError
  /\ events_of (on_video_end s) = [].
Proof.
  destruct s as [ft pl tot num ca th cd la df dd fl dl pc vc].
  cbn [total_frames current_frame_num]. intros Ht ->.
  unfold on_video_end, truediv.
  cbv [bind gets modify emit ret lift]. cbn.
  replace (tot >? 0) with true by (symmetry; apply Z.gtb_lt; lia).
  cbn. split; reflexivity.
Qed.

(** C7 fails in [on_video_end]. A video announced with one frame is
    loaded (the preview takes that frame), Play is pressed, the first
    read of the playback thread fails and schedules [on_video_end]: no
    frame was counted, [total_frames] is 1, and the percentage is
    computed as 0 / 0, which raises instead of giving 0. *)
Theorem on_video_end_zero_division :
  let loaded := state_of (load_file VideoExt true 1 init) in
  let playing := state_of (play_video loaded) in
  let run := _play_video_thread [None] playing in
  events_of run = [After 0 OnVideoEnd]
  /\ total_frames (state_of run) = 1
  /\ current_frame_num (state_of run) = 0
  /\ outcome_of (on_video_end (state_of run)) = Raise ZeroDivisionError
  /\ events_of (on_video_end (state_of run)) = [].
Proof. vm_compute. repeat split; reflexivity. Qed.

(** Playback never schedules the alarm, wherever it stops. *)
Lemma playback_fires_nothing (frames : list (option frame)) :
  forall s : gui,
    alerts_fired (events_of (_play_video_thread frames s)) = 0%nat.
Proof.
  induction frames as [|rd rest IH]; intros s; [reflexivity |].
  rewrite _play_video_thread_cons.
  destruct (is_playing s && video_capture s); [| reflexivity].
  destruct rd as [f|]; [| reflexivity].
  unfold bind at 1.
  destruct (video_frame_effect f s) as (Ho & _ & _ & _ & _ & Hfire & _).
  destruct (video_frame f s) as [[o s1] ev1].
  unfold outcome_of, events_of in Ho, Hfire. cbn [fst snd] in Ho, Hfire.
  subst o. specialize (IH s1).
  destruct (_play_video_thread rest s1) as [[o2 s2] ev2].
  unfold events_of in *. cbn [snd app] in *.
  now rewrite alerts_fired_app, Hfire, IH.
Qed.

(** C9, amended. Starting a camera session zeroes the frame counters,
    [drowsy_detections], the consecutive counter and the last alert
    time. Loading a video or an image zeroes the frame counter that
    playback advances, [drowsy_detections] and the very-drowsy counter,
    and leaves the last alert time as it was; playback fires no alert,
    and the alerts of a new camera session do not depend on the last
    alert time of the session before. *)
Theorem session_reset (s : gui) (n : Z) (t : float)
    (reads : list (option frame * float)) (frames : list (option frame)) :
  (let s' := state_of (start_camera true s) in
   current_frame_num s' = 0 /\ total_frames s' = 0
   /\ drowsy_detections s' = 0 /\ drowsy_frames s' = 0
   /\ last_alert_time s' = 0%float
   /\ frames_label s' = 0 /\ detections_label s' = 0
   /\ percentage_label s' = 0%float)
  /\ (let s' := state_of (load_file VideoExt true n s) in
      current_frame_num s' = 0 /\ total_frames s' = n
      /\ drowsy_detections s' = 0 /\ drowsy_frames s' = 0
      /\ last_alert_time s' = last_alert_time s
      /\ frames_label s' = 0 /\ detections_label s' = 0
      /\ percentage_label s' = 0%float)
  /\ (let s' := state_of (load_file ImageExt true n s) in
      current_frame_num s' = 0 /\ total_frames s' = 1
      /\ drowsy_detections s' = 0 /\ drowsy_frames s' = 0
      /\ last_alert_time s' = last_alert_time s
      /\ frames_label s' = 0 /\ detections_label s' = 0
      /\ percentage_label s' = 0%float)
  /\ alerts_fired (events_of (_play_video_thread frames s)) = 0%nat
  /\ _camera_loop reads (state_of (start_camera true (set_last_alert_time t s)))
     = _camera_loop reads (state_of (start_camera true s)).
Proof.
  split; [cbn; repeat split; reflexivity |].
  split; [cbn; repeat split; reflexivity |].
  split; [cbn; repeat split; reflexivity |].
  split; [apply playback_fires_nothing | reflexivity].
Qed.

(** In a fresh camera session the frame that brings the counter to the
    threshold fires as soon as the clock exceeds the cooldown, whatever
    the session before left as last alert time. *)
Lemma first_alert_not_blocked (s : gui) (f : frame) (now : float) :
  let s0 := state_of (start_camera true s) in
  let s1 := set_drowsy_frames (alert_threshold s - 1) s0 in
  is_drowsy_read (at_time f now) = true ->
  (now - 0 >? alert_cooldown s)%float = true ->
  alerts_fired (events_of (camera_frame f now s1)) = 1%nat.
Proof.
  cbv zeta. unfold is_drowsy_read, at_time. cbn [fst]. intros Hd Hc.
  destruct (camera_frame_effect f now
              (set_drowsy_frames (alert_threshold s - 1)
                 (state_of (start_camera true s))))
    as (_ & _ & _ & _ & _ & Hfire & _).
  rewrite Hfire, Hd. cbn.
  rewrite (geb_true (alert_threshold s - 1 + 1) (alert_threshold s));
    [| lia].
  cbn in Hc. unfold gtb in *. now rewrite Hc.
Qed.

End SessionFacts.

(* ================================================================== *)
(** * Sessions on the example platform *)

Section SessionExamples.
Import Frame Session.
#[local] Existing Instance reference_platform.
Open Scope Z_scope.

Lemma alert_debounce_witness :
  let s := state_of (start_camera true init) in
  let shut := closed_eyes_frame in
  let r1 := _camera_loop (repeat (at_time shut 1000) 29) s in
  let r2 := _camera_loop [at_time shut 1000] (state_of r1) in
  let r3 := _camera_loop (repeat (at_time shut 1003) 30) (state_of r2) in
  let r4 := _camera_loop [at_time shut 1006] (state_of r3) in
  alerts_fired (events_of r1) = 0%nat
  /\ alerts_fired (events_of r2) = 1%nat
  /\ alerts_fired (events_of r3) = 0%nat
  /\ alerts_fired (events_of r4) = 1%nat
  /\ events_of
       (_camera_loop
          (repeat (at_time shut 1000) 29 ++ [at_time shut 1000]
           ++ repeat (at_time shut 1003) 30 ++ [at_time shut 1006]) s)
     = events_of r1 ++ events_of r2 ++ events_of r3 ++ events_of r4.
Proof.
  apply (alert_debounce (state_of (start_camera true init))
           (repeat (at_time closed_eyes_frame 1000) 29)
           (repeat (at_time closed_eyes_frame 1003) 30)
           closed_eyes_frame closed_eyes_frame 1000%float 1006%float);
    vm_compute; reflexivity.
Defined.

Lemma camera_frame_counters_witness :
  no_detection (analyze_frame empty_frame) = true
  /\ drowsy_frames
       (state_of (camera_frame empty_frame 1000
                    (set_drowsy_frames 29 (state_of (start_camera true init)))))
     = 0.
Proof.
  split; [reflexivity |].
  destruct (camera_frame_counters empty_frame 1000
              (set_drowsy_frames 29 (state_of (start_camera true init))))
    as (_ & _ & _ & H).
  exact (proj1 (proj2 (H eq_refl))).
Defined.

(** C9, as the specification states it, on a concrete history: a camera
    session fires an alert at clock 1000 and is stopped, then a video is
    loaded. The new session still carries 1000 as last alert time. *)
Lemma load_video_keeps_last_alert_time :
  let cam := state_of (start_camera true init) in
  let alerted :=
    state_of (_camera_loop (repeat (at_time closed_eyes_frame 1000) 30) cam) in
  let stopped := state_of (stop_camera alerted) in
  let loaded := state_of (load_file VideoExt true 100 stopped) in
  last_alert_time alerted = 1000%float
  /\ last_alert_time loaded = 1000%float
  /\ last_alert_time loaded <> 0%float.
Proof.
  vm_compute. repeat split.
  intros H. apply (f_equal (fun v => (v =? 0)%float)) in H.
  vm_compute in H. discriminate H.
Qed.

Lemma playback_counters_and_summary_witness :
  let s := state_of (play_video (state_of (load_file VideoExt true 0 init))) in
  let r := _play_video_thread
             (map Some [closed_eyes_frame; closed_eyes_frame; empty_frame]
              ++ [None]) s in
  total_frames s = 0
  /\ current_frame_num (state_of r) = 3
  /\ drowsy_detections (state_of r) = 2
  /\ drowsy_frames (state_of r) = 2
  /\ last (events_of r) ShowError = After 0 OnVideoEnd
  /\ outcome_of (on_video_end (state_of r)) = Ok tt
  /\ events_of (on_video_end (state_of r)) = [].
Proof.
  destruct (playback_counters_and_summary closed_eyes_frame
              [closed_eyes_frame; empty_frame]
              (state_of (play_video
                           (state_of (load_file VideoExt true 0 init))))
              eq_refl eq_refl)
    as (_ & H1 & H2 & H3 & _ & _ & H4 & H5 & H6 & _).
  { vm_compute. discriminate. }
  exact (conj eq_refl (conj H1 (conj H2 (conj H3 (conj H4 (conj H5 H6)))))).
Defined.

Lemma playback_with_frame_count :
  let s := state_of (play_video (state_of (load_file VideoExt true 3 init))) in
  let r := _play_video_thread
             (map Some [closed_eyes_frame; empty_frame] ++ [None]) s in
  drowsy_detections (state_of r) = 1
  /\ drowsy_frames (state_of r) = 1
  /\ alerts_fired (events_of r) = 0%nat
  /\ events_of (on_video_end (state_of r)) = [ShowInfo 2 1 50 1].
Proof. vm_compute. repeat split; reflexivity. Qed.

End SessionExamples.

(* ================================================================== *)
(** * More order and sign facts on binary64 values *)

Section MoreFloatFacts.
Import Sign.

Lemma SFadd_comm (prec emax : Z) (x y : spec_float) :
  SFadd prec emax x y = SFadd prec emax y x.
Proof.
  destruct x as [[]|[]| |sx mx ex], y as [[]|[]| |sy my ey];
    try reflexivity.
  unfold SFadd. rewrite (Z.min_comm ey ex). cbv zeta.
  now rewrite Z.add_comm.
Qed.

Lemma add_comm (a b : float) : (a + b = b + a)%float.
Proof.
  rewrite <- (SF2Prim_Prim2SF (a + b)), <- (SF2Prim_Prim2SF (b + a)).
  rewrite !add_spec. unfold SF64add. now rewrite SFadd_comm.
Qed.

(** Values that compare equal compare alike with any third value. *)
Lemma SFcompare_Eq_l (x y z : spec_float) :
  SFcompare x y = Some Eq -> SFcompare x z = SFcompare y z.
Proof.
  destruct x as [[]|[]| |[] mx ex], y as [[]|[]| |[] my ey];
    simpl; try discriminate; try (intros _; now destruct z as [[]|[]| |[] ? ?]);
    destruct (Z.compare_spec ex ey) as [He|He|He]; try discriminate;
    change (PosDef.Pos.compare_cont Eq mx my) with (mx ?= my)%positive;
    destruct (Pos.compare_spec mx my) as [Hm|Hm|Hm]; try discriminate;
    intros _; now subst.
Qed.

Lemma SFcompare_Eq_r (x y z : spec_float) :
  SFcompare y z = Some Eq -> SFcompare x y = SFcompare x z.
Proof.
  intros H.
  assert (H' : SFcompare z y = Some Eq)
    by (rewrite SFcompare_antisym, H; reflexivity).
  rewrite (SFcompare_antisym y x), (SFcompare_antisym z x).
  f_equal. symmetry. now apply SFcompare_Eq_l.
Qed.

Lemma SFleb_ltb_trans (x y z : spec_float) :
  SFleb x y = true -> SFltb y z = true -> SFltb x z = true.
Proof.
  unfold SFleb. intros Hxy Hyz.
  destruct (SFcompare x y) as [[]|] eqn:E; try discriminate.
  - unfold SFltb in *. now rewrite (SFcompare_Eq_l x y z E).
  - apply (SFltb_trans x y z); [unfold SFltb; now rewrite E | exact Hyz].
Qed.

Lemma SFltb_leb_trans (x y z : spec_float) :
  SFltb x y = true -> SFleb y z = true -> SFltb x z = true.
Proof.
  unfold SFleb. intros Hxy Hyz.
  destruct (SFcompare y z) as [[]|] eqn:E; try discriminate.
  - unfold SFltb in *. now rewrite <- (SFcompare_Eq_r x y z E).
  - apply (SFltb_trans x y z); [exact Hxy | unfold SFltb; now rewrite E].
Qed.

Lemma leb_ltb_trans (a b c : float) :
  (a <=? b)%float = true -> (b <? c)%float = true -> (a <? c)%float = true.
Proof. rewrite leb_spec, !ltb_spec. apply SFleb_ltb_trans. Qed.

Lemma ltb_leb_trans (a b c : float) :
  (a <? b)%float = true -> (b <=? c)%float = true -> (a <? c)%float = true.
Proof. rewrite leb_spec, !ltb_spec. apply SFltb_leb_trans. Qed.

Lemma ltb_leb (a b : float) :
  (a <? b)%float = true -> (a <=? b)%float = true.
Proof.
  rewrite leb_spec, ltb_spec. unfold SFltb, SFleb.
  now destruct (SFcompare _ _) as [[]|].
Qed.

End MoreFloatFacts.

(* ================================================================== *)
(** * More on the scorer *)

Section MoreScorerFacts.
Import Scorer Spec ScorerParts Controls.
Open Scope float_scope.

(** X1. The scorer is symmetric in its two eye ratios: swapping them
    changes nothing in the score, the status or the indicators. *)
Theorem assess_drowsiness_symmetric (l r m : float) :
  assess_drowsiness l r m = assess_drowsiness r l m.
Proof. unfold assess_drowsiness. now rewrite (add_comm l r). Qed.

(** The score is the capped sum of the two chains. *)
Lemma assess_score_parts (l r m : float) :
  fst (fst (assess_drowsiness l r m))
  = Z.min (eye_points ((l + r) / 2) + mouth_points m) 100.
Proof.
  unfold assess_drowsiness, eye_points, mouth_points, gtb.
  destruct ((l + r) / 2 <? 0.20), ((l + r) / 2 <? 0.293),
    ((l + r) / 2 <? 0.343), ((l + r) / 2 <? 0.393),
    ((l + r) / 2 <? 0.443), (0.267 <? m), (0.167 <? m), (0.117 <? m);
    reflexivity.
Qed.

Lemma eye_points_antitone (a1 a2 : float) :
  (a1 <=? a2) = true -> (eye_points a2 <= eye_points a1)%Z.
Proof.
  intros H.
  assert (T : forall t, (a2 <? t) = true -> (a1 <? t) = true)
    by (intros t; apply leb_ltb_trans; exact H).
  pose proof (T 0.20) as T1. pose proof (T 0.293) as T2.
  pose proof (T 0.343) as T3. pose proof (T 0.393) as T4.
  pose proof (T 0.443) as T5. clear T.
  destruct (eye_chain a1) as (E12 & E23 & E34 & E45).
  unfold eye_points.
  destruct (a2 <? 0.20), (a2 <? 0.293), (a2 <? 0.343), (a2 <? 0.393),
    (a2 <? 0.443);
    try rewrite (T1 eq_refl) in *; try rewrite (T2 eq_refl) in *;
    try rewrite (T3 eq_refl) in *; try rewrite (T4 eq_refl) in *;
    try rewrite (T5 eq_refl) in *;
    destruct (a1 <? 0.20), (a1 <? 0.293), (a1 <? 0.343), (a1 <? 0.393),
      (a1 <? 0.443);
    try discriminate (E12 eq_refl); try discriminate (E23 eq_refl);
    try discriminate (E34 eq_refl); try discriminate (E45 eq_refl);
    lia.
Qed.

Lemma mouth_points_monotone (m1 m2 : float) :
  (m1 <=? m2) = true -> (mouth_points m1 <= mouth_points m2)%Z.
Proof.
  intros H.
  assert (T : forall t, (t <? m1) = true -> (t <? m2) = true)
    by (intros t Ht; apply (ltb_leb_trans t m1 m2 Ht H)).
  pose proof (T 0.267) as T1. pose proof (T 0.167) as T2.
  pose proof (T 0.117) as T3. clear T.
  destruct (mouth_chain m2) as (M12 & M23).
  unfold mouth_points, gtb.
  destruct (0.267 <? m1), (0.167 <? m1), (0.117 <? m1);
    try rewrite (T1 eq_refl) in *; try rewrite (T2 eq_refl) in *;
    try rewrite (T3 eq_refl) in *;
    destruct (0.267 <? m2), (0.167 <? m2), (0.117 <? m2);
    try discriminate (M12 eq_refl); try discriminate (M23 eq_refl);
    lia.
Qed.

(** X2. The score is monotone: eyes at least as closed on average and a
    mouth at least as open never give a lower score. *)
Theorem assess_drowsiness_monotone (l1 r1 m1 l2 r2 m2 : float) :
  (avgEAR l1 r1 <=? avgEAR l2 r2) = true ->
  (m2 <=? m1) = true ->
  (fst (fst (assess_drowsiness l2 r2 m2))
   <= fst (fst (assess_drowsiness l1 r1 m1)))%Z.
Proof.
  intros Ha Hm. rewrite !assess_score_parts.
  pose proof (eye_points_antitone _ _ Ha) as He.
  pose proof (mouth_points_monotone _ _ Hm) as Hp.
  unfold avgEAR in He. lia.
Qed.

Lemma assess_drowsiness_monotone_witness :
  (avgEAR 0.25 0.25 <=? avgEAR 0.35 0.45) = true
  /\ (0.1 <=? 0.2) = true
  /\ (fst (fst (assess_drowsiness 0.35 0.45 0.1))
      <= fst (fst (assess_drowsiness 0.25 0.25 0.2)))%Z.
Proof.
  refine (conj _ (conj _
            (assess_drowsiness_monotone 0.25 0.25 0.2 0.35 0.45 0.1 _ _)));
    reflexivity.
Defined.

(** No score of the scorer falls between 65 and 69, and its status is
    red in the panel exactly when the score is at least 70. *)
Lemma assess_high_drowsiness (l r m : float) :
  let '(score, status, _) := assess_drowsiness l r m in
  In score [0; 10; 15; 25; 30; 35; 40; 45; 55; 60; 70; 75; 85; 90; 95; 100]%Z
  /\ high_drowsiness score = String.eqb status "Very Drowsy / Asleep"
  /\ (score >=? 65)%Z = high_drowsiness score
  /\ String.eqb (panel_color status) "#FF0000"
     = high_drowsiness score
       || (String.eqb status "No Face" || String.eqb status "Error")
  /\ (overlay_color status = (0, 0, 255)%Z
      <-> panel_color status = "#FF0000"%string).
Proof.
  unfold assess_drowsiness, gtb.
  destruct ((l + r) / 2 <? 0.20), ((l + r) / 2 <? 0.293),
    ((l + r) / 2 <? 0.343), ((l + r) / 2 <? 0.393),
    ((l + r) / 2 <? 0.443), (0.267 <? m), (0.167 <? m), (0.117 <? m);
    vm_compute; intuition congruence.
Qed.

End MoreScorerFacts.

(* ================================================================== *)
(** * Signs through the arithmetic of the feature extractor *)

Section SignFacts.
Import Sign.
Variables prec emax : Z.

Lemma binary_round_aux_plus (mx ex : Z) (lx : location) :
  (0 <= mx)%Z -> sf_plus (binary_round_aux prec emax false mx ex lx).
Proof.
  intros H. unfold binary_round_aux.
  pose proof (shr_fexp_nonneg prec emax mx ex lx H) as H1.
  destruct (shr_fexp prec emax mx ex lx) as [mrs' e']. simpl in H1.
  pose proof (shr_fexp_nonneg prec emax _ e' loc_Exact
                (round_nearest_even_nonneg _ (loc_of_shr_record mrs') H1))
    as H2.
  destruct (shr_fexp prec emax _ e' loc_Exact) as [mrs'' e'']. simpl in H2.
  destruct (shr_m mrs'') as [|m|m]; simpl; try reflexivity; try lia.
  destruct (e'' <=? emax - prec)%Z; reflexivity.
Qed.

Lemma binary_round_plus (mx : positive) (ex : Z) :
  sf_plus (binary_round prec emax false mx ex).
Proof.
  unfold binary_round.
  destruct (shl_align mx ex _) as [mz ez].
  apply binary_round_aux_plus. lia.
Qed.

Lemma SFmul_plus (x y : spec_float) :
  sf_plus x -> sf_plus y -> sf_plus (SFmul prec emax x y).
Proof.
  destruct x as [sx|sx| |sx mx ex], y as [sy|sy| |sy my ey];
    simpl; intros Hx Hy; subst; try exact I; try reflexivity.
  apply binary_round_aux_plus. lia.
Qed.

Lemma SFadd_plus (x y : spec_float) :
  sf_plus x -> sf_plus y -> sf_plus (SFadd prec emax x y).
Proof.
  destruct x as [sx|sx| |sx mx ex], y as [sy|sy| |sy my ey];
    simpl; intros Hx Hy; subst; try exact I; try reflexivity.
  unfold SFadd, cond_Zopp. cbv zeta.
  rewrite <- Pos2Z.inj_add. unfold binary_normalize.
  apply binary_round_plus.
Qed.

Lemma SFsqrt_plus (x : spec_float) :
  sf_plus x -> sf_plus (SFsqrt prec emax x).
Proof.
  destruct x as [s|s| |s m e]; simpl; intros Hx; subst;
    try exact I; try reflexivity.
  unfold SFsqrt_core_binary.
  set (m' := match (e - _)%Z with Z0 => _ | Zpos _ => _ | Zneg _ => _ end).
  pose proof (Z.sqrtrem_spec m') as Hs.
  destruct (Z.sqrtrem m') as [q r].
  assert (Hq : (0 <= q)%Z).
  { assert (Hm : (0 <= m')%Z).
    { unfold m'. destruct (e - _)%Z; try lia. apply Z.shiftl_nonneg. lia. }
    specialize (Hs Hm). nia. }
  apply binary_round_aux_plus, Hq.
Qed.

Lemma SFdiv_plus (x y : spec_float) :
  sf_plus x -> sf_plus y -> sf_plus (SFdiv prec emax x y).
Proof.
  destruct x as [sx|sx| |sx mx ex], y as [sy|sy| |sy my ey];
    simpl; intros Hx Hy; subst; try exact I; try reflexivity.
  unfold SFdiv_core_binary.
  set (s := (ex - ey - _)%Z).
  set (m' := match s with Z0 => Zpos mx | Zpos _ => Z.shiftl (Zpos mx) s
                        | Zneg _ => Z0 end).
  assert (Hm : (0 <= m')%Z).
  { unfold m'. destruct s; try lia. apply Z.shiftl_nonneg. lia. }
  pose proof (div_eucl_nonneg m' my Hm) as Hq.
  destruct (Z.div_eucl m' (Zpos my)) as [q r]. simpl in Hq.
  apply binary_round_aux_plus, Hq.
Qed.

Lemma sf_plus_not_negative (x : spec_float) :
  sf_plus x -> sf_not_negative x.
Proof. destruct x; simpl; auto. Qed.

Lemma sf_not_negative_not_below_zero (x : spec_float) :
  sf_not_negative x -> SFltb x (S754_zero false) = false.
Proof.
  destruct x as [[]|s| |s m e]; simpl; intros H; subst; reflexivity.
Qed.

(** A value that is not below zero and is not zero has sign bit 0. *)
Lemma sf_not_negative_nonzero_plus (x : spec_float) :
  sf_not_negative x -> SFeqb x (S754_zero false) = false -> sf_plus x.
Proof.
  destruct x as [[]|s| |s m e]; simpl; intros H Hz; subst; auto;
    discriminate Hz.
Qed.

(** A square root is never below zero, whatever its argument. *)
Lemma SFsqrt_not_negative (x : spec_float) :
  sf_not_negative (SFsqrt prec emax x).
Proof.
  destruct x as [s|[]| |[] m e]; try exact I; try reflexivity.
  apply sf_plus_not_negative.
  exact (SFsqrt_plus (S754_finite false m e) eq_refl).
Qed.

Lemma SFadd_not_negative (x y : spec_float) :
  sf_not_negative x -> sf_not_negative y ->
  sf_not_negative (SFadd prec emax x y).
Proof.
  destruct x as [sx|sx| |sx mx ex], y as [sy|sy| |sy my ey];
    simpl; intros Hx Hy; subst; try exact I; try reflexivity.
  - now destruct sx, sy.
  - apply sf_plus_not_negative.
    exact (SFadd_plus (S754_finite false mx ex) (S754_finite false my ey)
             eq_refl eq_refl).
Qed.

Lemma SFdiv_not_negative (x y : spec_float) :
  sf_not_negative x -> sf_plus y -> sf_not_negative (SFdiv prec emax x y).
Proof.
  destruct x as [sx|sx| |sx mx ex], y as [sy|sy| |sy my ey];
    simpl; intros Hx Hy; subst; try exact I; try reflexivity.
  apply sf_plus_not_negative.
  exact (SFdiv_plus (S754_finite false mx ex) (S754_finite false my ey)
           eq_refl eq_refl).
Qed.

End SignFacts.

(* ================================================================== *)
(** * More on the frame processor *)

Section MoreFrameFacts.
Import Features Frame Sign ScorerParts Controls.
Context {P : Platform}.
Open Scope Z_scope.

(** A distance is a square root, so it is never below zero, whatever
    the C library gave for the squares. *)
Lemma distance_not_negative (p q : landmark) (d : float) :
  calculate_distance p q = Ok d -> sf_not_negative (Prim2SF d).
Proof.
  intros H. apply calculate_distance_ok in H as (a & b & _ & _ & ->).
  rewrite sqrt_spec. apply SFsqrt_not_negative.
Qed.

Lemma nonzero_distance_plus (p q : landmark) (d : float) :
  calculate_distance p q = Ok d -> (d =? 0)%float = false ->
  sf_plus (Prim2SF d).
Proof.
  intros H Hz. apply sf_not_negative_nonzero_plus.
  - exact (distance_not_negative p q d H).
  - rewrite eqb_spec in Hz. exact Hz.
Qed.

Lemma eye_ratio_not_negative (idx : list nat) (lm : list landmark) (r : float) :
  calculate_eye_aspect_ratio idx lm = Ok r -> sf_not_negative (Prim2SF r).
Proof.
  unfold calculate_eye_aspect_ratio.
  repeat match goal with
         | |- context [rbind (getitem ?l ?i) _] =>
             destruct (getitem l i); cbn [rbind]; [| discriminate]
         end.
  repeat match goal with
         | |- context [rbind (calculate_distance ?p ?q) _] =>
             let E := fresh "E" in
             destruct (calculate_distance p q) eqn:E; cbn [rbind];
             [| discriminate]
         end.
  match goal with
  | |- context [(?h =? 0)%float] => destruct (h =? 0)%float eqn:Hz
  end; intros [= <-]; [exact I |].
  rewrite div_spec, add_spec, mul_spec.
  apply SFdiv_not_negative.
  - apply SFadd_not_negative; eapply distance_not_negative; eassumption.
  - apply SFmul_plus; [reflexivity |].
    eapply nonzero_distance_plus; eassumption.
Qed.

Lemma mouth_ratio_not_negative (idx : list nat) (lm : list landmark)
    (r : float) :
  calculate_mouth_aspect_ratio idx lm = Ok r -> sf_not_negative (Prim2SF r).
Proof.
  unfold calculate_mouth_aspect_ratio.
  repeat match goal with
         | |- context [rbind (getitem ?l ?i) _] =>
             destruct (getitem l i); cbn [rbind]; [| discriminate]
         end.
  repeat match goal with
         | |- context [rbind (calculate_distance ?p ?q) _] =>
             let E := fresh "E" in
             destruct (calculate_distance p q) eqn:E; cbn [rbind];
             [| discriminate]
         end.
  match goal with
  | |- context [(?h =? 0)%float] => destruct (h =? 0)%float eqn:Hz
  end; intros [= <-]; [exact I |].
  rewrite div_spec.
  apply SFdiv_not_negative.
  - eapply distance_not_negative; eassumption.
  - eapply nonzero_distance_plus; eassumption.
Qed.

Lemma not_negative_ltb (r : float) :
  sf_not_negative (Prim2SF r) -> (r <? 0)%float = false.
Proof. intros H. rewrite ltb_spec. now apply sf_not_negative_not_below_zero. Qed.

Lemma eye_points_range (a : float) : 0 <= eye_points a <= 70.
Proof.
  unfold eye_points.
  destruct (a <? 0.20)%float, (a <? 0.293)%float, (a <? 0.343)%float,
    (a <? 0.393)%float, (a <? 0.443)%float; lia.
Qed.

Lemma mouth_points_range (m : float) : 0 <= mouth_points m <= 35.
Proof.
  unfold mouth_points, gtb.
  destruct (0.267 <? m)%float, (0.167 <? m)%float, (0.117 <? m)%float; lia.
Qed.

(** The three ways out of [analyze_frame]: no face, an exception caught,
    or the result of the scorer on the three ratios of the first face,
    which were computed and drawn without an exception. *)
Lemma analyze_frame_cases (f : frame) :
  analyze_frame f = (0, "No Face"%string, [], 0%float, 0%float, 0%float)
  \/ analyze_frame f = (0, "Error"%string, [], 0%float, 0%float, 0%float)
  \/ exists lm faces l r m,
       detection f = Ok (lm :: faces)
       /\ calculate_eye_aspect_ratio left_eye_landmarks lm = Ok l
       /\ calculate_eye_aspect_ratio right_eye_landmarks lm = Ok r
       /\ calculate_mouth_aspect_ratio mouth_landmarks lm = Ok m
       /\ draw_landmarks lm left_eye_landmarks right_eye_landmarks
            mouth_landmarks (snd (shape f)) (fst (shape f)) = Ok tt
       /\ analyze_frame f
          = (Scorer.assess_drowsiness l r m, l, r, m).
Proof.
  unfold analyze_frame, analyze_frame_try.
  destruct f as [sh [[|lm faces]|e]]; cbn [detection shape rbind]; auto.
  destruct (calculate_eye_aspect_ratio left_eye_landmarks lm) as [l|] eqn:El;
    cbn [rbind]; auto.
  destruct (calculate_eye_aspect_ratio right_eye_landmarks lm) as [r|] eqn:Er;
    cbn [rbind]; auto.
  destruct (calculate_mouth_aspect_ratio mouth_landmarks lm) as [m|] eqn:Em;
    cbn [rbind]; auto.
  destruct (Scorer.assess_drowsiness l r m) as [[sc st] ind] eqn:Ea.
  destruct (draw_landmarks _ _ _ _ _ _) as [[]|] eqn:Ed; cbn [rbind]; auto.
  right. right. exists lm, faces, l, r, m. now rewrite Ea.
Qed.

(** X3. Whatever a frame is, the score that [analyze_frame] returns is
    one of sixteen values, none of them from 65 to 69, so the
    high-drowsiness text of the panel (score at least 70) appears exactly
    with the status "Very Drowsy / Asleep" (score at least 65). The
    status line of the panel is red exactly then or when the frame is
    reported as "No Face" or "Error", and the status written on the
    frame is red exactly when the panel's is. *)
Theorem high_drowsiness_is_very_drowsy (f : frame) :
  let '(score, status, _, _, _, _) := analyze_frame f in
  In score [0; 10; 15; 25; 30; 35; 40; 45; 55; 60; 70; 75; 85; 90; 95; 100]
  /\ high_drowsiness score = String.eqb status "Very Drowsy / Asleep"
  /\ (score >=? 65) = high_drowsiness score
  /\ String.eqb (panel_color status) "#FF0000"
     = high_drowsiness score || no_detection (analyze_frame f)
  /\ (overlay_color status = (0, 0, 255)
      <-> panel_color status = "#FF0000"%string).
Proof.
  destruct (analyze_frame_cases f)
    as [-> | [-> | (lm & faces & l & r & m & _ & _ & _ & _ & _ & ->)]];
    [vm_compute; intuition congruence | vm_compute; intuition congruence |].
  pose proof (assess_high_drowsiness l r m) as H.
  destruct (Scorer.assess_drowsiness l r m) as [[sc st] ind].
  destruct H as (H1 & H2 & H3 & H4 & H5).
  split; [exact H1 |]. split; [exact H2 |]. split; [exact H3 |].
  split; [exact H4 | exact H5].
Qed.

(** X4. Whatever the detector delivers (an exception, no face, a short or
    degenerate mesh, coordinates that are not numbers) and whatever the
    C library gives for a square, the analysis of a frame has a score
    from 0 to 100 and three ratios that are never negative; and when it
    reports "No Face" or "Error" it is score 0, no indicator and all
    ratios 0. *)
Theorem frame_result_well_formed (f : frame) :
  let '(score, status, indicators, left_ear, right_ear, mar) :=
    analyze_frame f in
  0 <= score <= 100
  /\ (left_ear <? 0)%float = false
  /\ (right_ear <? 0)%float = false
  /\ (mar <? 0)%float = false
  /\ (no_detection (analyze_frame f) = false
      \/ (score = 0 /\ indicators = []
          /\ left_ear = 0%float /\ right_ear = 0%float /\ mar = 0%float)).
Proof.
  destruct (analyze_frame_cases f)
    as [-> | [-> | (lm & faces & l & r & m & _ & El & Er & Em & _ & ->)]];
    try (repeat split; try lia; try reflexivity; right; repeat split;
         reflexivity).
  pose proof (assess_score_parts l r m) as Hs.
  pose proof (assess_status_known l r m) as Hst.
  pose proof (eye_points_range ((l + r) / 2)) as He.
  pose proof (mouth_points_range m) as Hm.
  destruct (Scorer.assess_drowsiness l r m) as [[sc st] ind].
  cbn [fst snd] in Hs, Hst.
  split; [lia |].
  split; [apply not_negative_ltb, (eye_ratio_not_negative _ _ _ El) |].
  split; [apply not_negative_ltb, (eye_ratio_not_negative _ _ _ Er) |].
  split; [apply not_negative_ltb, (mouth_ratio_not_negative _ _ _ Em) |].
  left. unfold no_detection, status_of.
  cbn in Hst. destruct Hst as [<-|[<-|[<-|[<-|[<-|[]]]]]]; reflexivity.
Qed.

Lemma right_eye_short (lm : list landmark) :
  (List.length lm <= 386)%nat ->
  succeeds (calculate_eye_aspect_ratio right_eye_landmarks lm) = false.
Proof.
  intros H.
  assert (H386 : getitem lm 386 = Raise IndexError).
  { unfold getitem.
    now rewrite (proj2 (nth_error_None lm 386) H). }
  unfold calculate_eye_aspect_ratio, right_eye_landmarks.
  cbn [getitem nth_error rbind].
  destruct (getitem lm 362); cbn [rbind]; [| reflexivity].
  destruct (getitem lm 385); cbn [rbind]; [| reflexivity].
  rewrite H386. reflexivity.
Qed.

(** X5. A detected face is reported as "Error" exactly when one of the
    three ratios or the drawing of the landmarks raises. A mesh of at
    most 386 landmarks always is, the highest index read being 386; on a
    longer mesh no index fails, which leaves the squares that overflow
    and the landmarks that cannot be drawn. Faces after the first play no
    part. *)
Theorem error_status_causes
    (sh : Z * Z) (lm : list landmark) (others : list (list landmark)) :
  let f := mkFrame sh (Ok (lm :: others)) in
  String.eqb (status_of (analyze_frame f)) "Error"
  = negb (succeeds (calculate_eye_aspect_ratio left_eye_landmarks lm)
          && succeeds (calculate_eye_aspect_ratio right_eye_landmarks lm)
          && succeeds (calculate_mouth_aspect_ratio mouth_landmarks lm)
          && succeeds (draw_landmarks lm left_eye_landmarks
                         right_eye_landmarks mouth_landmarks
                         (snd sh) (fst sh)))
  /\ ((List.length lm <= 386)%nat ->
      status_of (analyze_frame f) = "Error"%string)
  /\ ((386 < List.length lm)%nat ->
      calculate_eye_aspect_ratio left_eye_landmarks lm <> Raise IndexError
      /\ calculate_eye_aspect_ratio right_eye_landmarks lm
         <> Raise IndexError
      /\ calculate_mouth_aspect_ratio mouth_landmarks lm
         <> Raise IndexError)
  /\ analyze_frame f = analyze_frame (mkFrame sh (Ok [lm])).
Proof.
  cbv zeta.
  assert (E : String.eqb
                (status_of (analyze_frame (mkFrame sh (Ok (lm :: others)))))
                "Error"
              = negb
                  (succeeds (calculate_eye_aspect_ratio left_eye_landmarks lm)
                   && succeeds
                        (calculate_eye_aspect_ratio right_eye_landmarks lm)
                   && succeeds
                        (calculate_mouth_aspect_ratio mouth_landmarks lm)
                   && succeeds
                        (draw_landmarks lm left_eye_landmarks
                           right_eye_landmarks mouth_landmarks
                           (snd sh) (fst sh)))).
  { unfold analyze_frame, analyze_frame_try. cbn [detection shape rbind].
    destruct (calculate_eye_aspect_ratio left_eye_landmarks lm) as [l|];
      cbn [rbind succeeds andb]; [| reflexivity].
    destruct (calculate_eye_aspect_ratio right_eye_landmarks lm) as [r|];
      cbn [rbind succeeds andb]; [| reflexivity].
    destruct (calculate_mouth_aspect_ratio mouth_landmarks lm) as [m|];
      cbn [rbind succeeds andb]; [| reflexivity].
    pose proof (assess_status_known l r m) as Hst.
    destruct (Scorer.assess_drowsiness l r m) as [[sc st] ind].
    destruct (draw_landmarks _ _ _ _ _ _) as [u|];
      cbn [rbind succeeds negb]; [| reflexivity].
    cbn in Hst. unfold status_of.
    destruct Hst as [<-|[<-|[<-|[<-|[<-|[]]]]]]; reflexivity. }
  split; [exact E |].
  split; [| split; [apply ratios_index_free | reflexivity]].
  intros Hs. apply String.eqb_eq. rewrite E, (right_eye_short lm Hs).
  now rewrite andb_false_r.
Qed.

End MoreFrameFacts.

(* ================================================================== *)
(** * The frame processor on the example platform *)

Section FrameExamples.
Import Features Frame.
#[local] Existing Instance reference_platform.

Lemma error_status_causes_witness :
  status_of
    (analyze_frame
       (mkFrame (480, 640)%Z (Ok [repeat (mkLandmark 0.5 0.5 0) 386])))
  = "Error"%string.
Proof.
  refine (proj1 (proj2 (error_status_causes (480, 640)%Z
                          (repeat (mkLandmark 0.5 0.5 0) 386) [])) _).
  vm_compute. repeat constructor.
Defined.

(** A full mesh is reported as "Error" all the same when a landmark
    cannot be drawn, here for a coordinate that is not a number, and when
    a square overflows. *)
Example undrawable_mesh_is_error :
  status_of
    (analyze_frame
       (mkFrame (480, 640)%Z (Ok [repeat (mkLandmark nan 0.5 0) 468])))
  = "Error"%string
  /\ status_of
       (analyze_frame
          (mkFrame (480, 640)%Z
             (Ok [repeat (mkLandmark 0.5 0.5 0) 13
                  ++ mkLandmark 0.5 1e200 0
                  :: repeat (mkLandmark 0.5 0.5 0) 454])))
     = "Error"%string.
Proof. split; vm_compute; reflexivity. Qed.

End FrameExamples.

(* ================================================================== *)
(** * More on the camera session *)

Section MoreCameraFacts.
Import Frame Session Controls.
Context {P : Platform}.
Open Scope Z_scope.

Lemma _camera_loop_inactive (reads : list (option frame * float)) (s : gui) :
  camera_active s = false -> _camera_loop reads s = (Ok tt, s, []).
Proof.
  intros H. destruct reads as [|[rd t] rest]; [reflexivity |].
  cbn [_camera_loop]. unfold bind, gets. now rewrite H.
Qed.

Lemma _camera_loop_failed_read (t : float)
    (rest : list (option frame * float)) (s : gui) :
  _camera_loop ((None, t) :: rest) s = (Ok tt, s, []).
Proof.
  cbn [_camera_loop]. unfold bind, gets. now destruct (camera_active s).
Qed.

Lemma camera_frame_active (f : frame) (t : float) (s : gui) :
  camera_active (state_of (camera_frame f t s)) = camera_active s.
Proof.
  destruct (camera_frame_effect f t s) as (_ & _ & _ & _ & _ & _ & Hcfg).
  now destruct Hcfg as (_ & _ & -> & _).
Qed.

(** What every turn of the camera loop keeps, the loop keeps. *)
Lemma _camera_loop_preserves (Inv : gui -> Prop) :
  (forall f t s, Inv s -> Inv (state_of (camera_frame f t s))) ->
  forall reads s, Inv s -> Inv (state_of (_camera_loop reads s)).
Proof.
  intros Hstep. induction reads as [|[[f|] t] rest IH]; intros s Hs.
  - exact Hs.
  - destruct (camera_active s) eqn:Ha.
    + rewrite (_camera_loop_step f t rest s Ha). unfold state_of at 1.
      cbn [fst snd]. apply IH, Hstep, Hs.
    + now rewrite (_camera_loop_inactive _ s Ha).
  - now rewrite _camera_loop_failed_read.
Qed.

(** X6. A failed camera read ends the loop: whatever was delivered after
    it is never analysed, counted or alerted on. *)
Theorem failed_read_ends_camera_loop
    (before after : list (option frame * float)) (t : float) :
  forall s : gui,
    _camera_loop (before ++ (None, t) :: after) s = _camera_loop before s.
Proof.
  induction before as [|[[f|] t'] rest IH]; intros s.
  - cbn [app]. now rewrite _camera_loop_failed_read.
  - cbn [app]. destruct (camera_active s) eqn:Ha.
    + rewrite !(_camera_loop_step f t' _ s Ha). cbv zeta. now rewrite IH.
    + now rewrite !(_camera_loop_inactive _ s Ha).
  - cbn [app]. now rewrite !_camera_loop_failed_read.
Qed.

Lemma _play_video_thread_paused (frames : list (option frame)) (s : gui) :
  is_playing s = false -> _play_video_thread frames s = (Ok tt, s, []).
Proof.
  intros H. destruct frames as [|rd rest]; [reflexivity |].
  now rewrite _play_video_thread_cons, H.
Qed.

(** While every clock stays within the cooldown of the last alert, no
    frame fires, whatever the frames are. *)
Lemma cooldown_blocks_alerts (reads : list (option frame * float)) :
  forall s : gui,
    forallb (in_cooldown (last_alert_time s) (alert_cooldown s)) reads = true ->
    alerts_fired (events_of (_camera_loop reads s)) = 0%nat.
Proof.
  induction reads as [|[[f|] t] rest IH]; intros s Hc.
  - reflexivity.
  - destruct (camera_active s) eqn:Ha;
      [| now rewrite (_camera_loop_inactive _ s Ha)].
    rewrite (_camera_loop_step f t rest s Ha).
    cbn [forallb] in Hc. apply andb_true_iff in Hc as [Hc Hrest].
    unfold in_cooldown in Hc. cbn [snd] in Hc. apply negb_true_iff in Hc.
    destruct (camera_frame_effect f t s)
      as (_ & _ & _ & _ & Hlast & Hfire & Hcfg).
    rewrite Hc, !andb_false_r in Hlast, Hfire.
    unfold events_of at 1. cbn [snd fst].
    rewrite alerts_fired_app, Hfire. cbn [Nat.add].
    apply IH. destruct Hcfg as (_ & -> & _). now rewrite Hlast.
  - now rewrite _camera_loop_failed_read.
Qed.

(** X8. At most one alert per cooldown window: when no clock of a run is
    more than the cooldown past an earlier one, the run fires at most one
    alert, whatever the frames and the counters are. *)
Theorem one_alert_per_window (reads : list (option frame * float)) :
  forall s : gui,
    pairwise_within (alert_cooldown s) reads = true ->
    (alerts_fired (events_of (_camera_loop reads s)) <= 1)%nat.
Proof.
  induction reads as [|[[f|] t] rest IH]; intros s Hw.
  - cbn. lia.
  - destruct (camera_active s) eqn:Ha;
      [| rewrite (_camera_loop_inactive _ s Ha); cbn; lia].
    rewrite (_camera_loop_step f t rest s Ha).
    cbn [pairwise_within snd] in Hw. apply andb_true_iff in Hw as [Hnow Hrest].
    destruct (camera_frame_effect f t s)
      as (_ & _ & _ & _ & Hlast & Hfire & Hcfg).
    destruct Hcfg as (_ & Hcd & _).
    unfold events_of at 1. cbn [snd fst].
    rewrite alerts_fired_app, Hfire.
    destruct ((frame_score f >=? 65)
              && (_ >=? alert_threshold s)
              && (t - last_alert_time s >? alert_cooldown s)%float).
    + rewrite (cooldown_blocks_alerts rest); [lia |].
      now rewrite Hlast, Hcd.
    + cbn [Nat.add]. apply IH. now rewrite Hcd.
  - rewrite _camera_loop_failed_read. cbn. lia.
Qed.

Lemma peak_streak_ge (reads : list (option frame * float)) :
  forall c, c <= peak_streak c reads.
Proof. destruct reads; intros c; cbn [peak_streak]; lia. Qed.

(** X9. Debounce: as long as no run of consecutive frames scoring at
    least 65 brings the counter to the threshold, nothing fires, however
    long the session lasts and whatever the clock shows. *)
Theorem short_streaks_fire_nothing (reads : list (option frame * float)) :
  forall s : gui,
    peak_streak (drowsy_frames s) reads < alert_threshold s ->
    alerts_fired (events_of (_camera_loop reads s)) = 0%nat.
Proof.
  induction reads as [|[[f|] t] rest IH]; intros s Hp.
  - reflexivity.
  - destruct (camera_active s) eqn:Ha;
      [| now rewrite (_camera_loop_inactive _ s Ha)].
    rewrite (_camera_loop_step f t rest s Ha).
    cbn [peak_streak] in Hp. unfold is_drowsy_read in Hp. cbn [fst] in Hp.
    destruct (camera_frame_effect f t s)
      as (_ & Hdf & _ & _ & _ & Hfire & Hcfg).
    destruct Hcfg as (Hth & _).
    set (c' := if frame_score f >=? 65 then drowsy_frames s + 1 else 0) in *.
    pose proof (peak_streak_ge rest c') as Hge.
    assert (Hquiet : (frame_score f >=? 65) && (c' >=? alert_threshold s)
                     = false).
    { rewrite (geb_false c' (alert_threshold s)) by lia.
      apply andb_false_r. }
    rewrite Hquiet in Hfire. cbn [andb] in Hfire.
    unfold events_of at 1. cbn [snd fst].
    rewrite alerts_fired_app, Hfire. cbn [Nat.add].
    apply IH. rewrite Hdf, Hth. lia.
  - now rewrite _camera_loop_failed_read.
Qed.

End MoreCameraFacts.

(* ================================================================== *)
(** * Camera sessions on the example platform *)

Section CameraExamples.
Import Frame Session Controls.
#[local] Existing Instance reference_platform.
Open Scope Z_scope.

Lemma one_alert_per_window_witness :
  (alerts_fired
     (events_of
        (_camera_loop
           (repeat (at_time closed_eyes_frame 1000) 40
            ++ repeat (at_time closed_eyes_frame 1004) 40)
           (state_of (start_camera true init)))) <= 1)%nat.
Proof.
  apply one_alert_per_window. vm_compute. reflexivity.
Defined.

Lemma short_streaks_fire_nothing_witness :
  alerts_fired
    (events_of
       (_camera_loop
          (repeat (at_time closed_eyes_frame 1000) 29
           ++ [at_time empty_frame 1001]
           ++ repeat (at_time closed_eyes_frame 1002) 29)
          (state_of (start_camera true init)))) = 0%nat.
Proof.
  apply short_streaks_fire_nothing. vm_compute. reflexivity.
Defined.

End CameraExamples.

(* ================================================================== *)
(** * More on statistics, playback and the panel *)

Section MoreStatisticsFacts.
Import Frame Session Controls.
Context {P : Platform}.
Open Scope Z_scope.

Lemma geb_65_45 (sc : Z) : (sc >=? 65) = true -> (sc >=? 45) = true.
Proof. rewrite !Z.geb_leb, !Z.leb_le. lia. Qed.

Lemma camera_frame_ordered (f : frame) (t : float) (s : gui) :
  counters_ordered s -> counters_ordered (state_of (camera_frame f t s)).
Proof.
  unfold counters_ordered. intros (H1 & H2 & H3).
  destruct (camera_frame_effect f t s) as (_ & -> & -> & -> & _).
  pose proof (geb_65_45 (frame_score f)) as H.
  destruct (frame_score f >=? 65), (frame_score f >=? 45);
    try discriminate (H eq_refl); lia.
Qed.

Lemma video_frame_ordered (f : frame) (s : gui) :
  counters_ordered s -> counters_ordered (state_of (video_frame f s)).
Proof.
  unfold counters_ordered. intros (H1 & H2 & H3).
  destruct (video_frame_effect f s) as (_ & -> & -> & -> & _).
  pose proof (geb_65_45 (frame_score f)) as H.
  destruct (frame_score f >=? 65), (frame_score f >=? 45);
    try discriminate (H eq_refl); lia.
Qed.

(** What every turn of the playback loop keeps, the loop keeps. *)
Lemma _play_video_thread_preserves (Inv : gui -> Prop) :
  (forall f s, Inv s -> Inv (state_of (video_frame f s))) ->
  forall frames s, Inv s -> Inv (state_of (_play_video_thread frames s)).
Proof.
  intros Hstep. induction frames as [|[f|] rest IH]; intros s Hs.
  - exact Hs.
  - destruct (is_playing s) eqn:Hp, (video_capture s) eqn:Hc;
      try (rewrite _play_video_thread_cons, Hp, Hc; exact Hs).
    rewrite (_play_video_thread_step f rest s Hp Hc). unfold state_of at 1.
    cbn [fst snd]. apply IH, Hstep, Hs.
  - rewrite _play_video_thread_cons.
    destruct (is_playing s && video_capture s); exact Hs.
Qed.

(** X10. From the start of a camera session or of a playback, through
    any frames: the consecutive or very-drowsy counter never exceeds
    [drowsy_detections], which never exceeds the number of frames
    processed, and none is negative. *)
Theorem counters_stay_ordered
    (s : gui) (n : Z) (reads : list (option frame * float))
    (frames : list (option frame)) :
  counters_ordered
    (state_of (_camera_loop reads (state_of (start_camera true s))))
  /\ counters_ordered
       (state_of
          (_play_video_thread frames
             (state_of (play_video (state_of (load_file VideoExt true n s)))))).
Proof.
  split.
  - apply (_camera_loop_preserves counters_ordered camera_frame_ordered).
    unfold counters_ordered. cbn. lia.
  - apply (_play_video_thread_preserves counters_ordered video_frame_ordered).
    unfold counters_ordered. cbn. lia.
Qed.

Lemma play_video_on_video (s : gui) :
  video_capture s = true ->
  file_type s = Some Video ->
  state_of (play_video s) = set_is_playing true s.
Proof.
  intros Hc H. unfold play_video, bind, gets, modify, ret.
  rewrite Hc, H. reflexivity.
Qed.

(** Without a capture, or on a file that is not a video, Play does
    nothing. *)
Lemma play_video_refused (s : gui) :
  video_capture s = false \/ file_type s <> Some Video ->
  play_video s = (Ok tt, s, []).
Proof.
  intros H. unfold play_video, bind, gets, modify, ret.
  destruct (video_capture s); [| reflexivity].
  destruct H as [H|H]; [discriminate H |].
  destruct (file_type s) as [[]|]; try reflexivity. now elim H.
Qed.

Lemma on_video_end_state (s : gui) :
  0 < total_frames s ->
  current_frame_num s <> 0 ->
  video_capture s = true ->
  state_of (on_video_end s) = set_current_frame_num 0 (set_is_playing false s).
Proof.
  destruct s as [ft pl tot num ca th cd la df dd fl dl pc vc].
  cbn [total_frames current_frame_num video_capture]. intros Ht Hn ->.
  destruct tot as [|q|q]; try lia.
  destruct num as [|p|p]; try lia; reflexivity.
Qed.

(** X11. Replaying a video without loading it again adds to the
    statistics of the first pass while the frame count starts over: the
    summary of the second pass reports the drowsy frames of both passes
    against the frames of the second pass alone. *)
Theorem replay_accumulates
    (s : gui) (n : Z) (f1 : frame) (fs1 : list frame)
    (f2 : frame) (fs2 : list frame) :
  0 < n ->
  let s0 := state_of (play_video (state_of (load_file VideoExt true n s))) in
  let s1 := state_of (_play_video_thread (map Some (f1 :: fs1) ++ [None]) s0) in
  let s2 := state_of (on_video_end s1) in
  let s3 := state_of (play_video s2) in
  let s4 := state_of (_play_video_thread (map Some (f2 :: fs2) ++ [None]) s3) in
  events_of (on_video_end s4)
  = [ShowInfo
       (Z.of_nat (List.length (f2 :: fs2)))
       (count_scoring 45 (f1 :: fs1) + count_scoring 45 (f2 :: fs2))
       (Spec.percentage
          (count_scoring 45 (f1 :: fs1) + count_scoring 45 (f2 :: fs2))
          (Z.of_nat (List.length (f2 :: fs2))))
       (count_scoring 65 (f1 :: fs1) + count_scoring 65 (f2 :: fs2))].
Proof.
  intros Hn. cbv zeta.
  set (s0 := state_of (play_video (state_of (load_file VideoExt true n s)))).
  assert (Hp0 : is_playing s0 = true) by reflexivity.
  assert (Hc0 : video_capture s0 = true) by reflexivity.
  destruct (playback_run (f1 :: fs1) s0 Hp0 Hc0)
    as (A1 & A2 & A3 & _ & _ & _ & A7).
  set (s1 := state_of (_play_video_thread (map Some (f1 :: fs1) ++ [None]) s0))
    in *.
  destruct A7 as (_ & _ & _ & _ & Aft & Atot & Acap).
  change (file_type s0) with (Some Video) in Aft.
  change (total_frames s0) with n in Atot.
  change (video_capture s0) with true in Acap.
  change (drowsy_detections s0) with 0 in A1.
  change (drowsy_frames s0) with 0 in A2.
  change (current_frame_num s0) with 0 in A3.
  rewrite (on_video_end_state s1)
    by (rewrite ?Atot, ?A3; cbn [List.length]; lia || exact Acap).
  rewrite play_video_on_video by (exact Aft || exact Acap).
  set (s3 := set_is_playing true
               (set_current_frame_num 0 (set_is_playing false s1))).
  assert (Hp3 : is_playing s3 = true) by reflexivity.
  assert (Hc3 : video_capture s3 = true) by exact Acap.
  destruct (playback_run (f2 :: fs2) s3 Hp3 Hc3)
    as (B1 & B2 & B3 & _ & _ & _ & B7).
  set (s4 := state_of (_play_video_thread (map Some (f2 :: fs2) ++ [None]) s3))
    in *.
  destruct B7 as (_ & _ & _ & _ & _ & Btot & Bcap).
  change (total_frames s3) with (total_frames s1) in Btot.
  change (video_capture s3) with (video_capture s1) in Bcap.
  change (drowsy_detections s3) with (drowsy_detections s1) in B1.
  change (drowsy_frames s3) with (drowsy_frames s1) in B2.
  change (current_frame_num s3) with 0 in B3.
  destruct (on_video_end_summary s4) as (_ & S2 & _).
  { rewrite Btot, Atot. exact Hn. }
  { rewrite B3. cbn [List.length]. lia. }
  { rewrite Bcap. exact Acap. }
  rewrite S2, B1, B2, B3, A1, A2. reflexivity.
Qed.

End MoreStatisticsFacts.

(* ================================================================== *)
(** * More on the controls *)

Section MoreControlFacts.
Import Frame Session Controls.
Context {P : Platform}.
Open Scope Z_scope.

Lemma video_frame_config (f : frame) (s : gui) :
  is_playing (state_of (video_frame f s)) = is_playing s
  /\ file_type (state_of (video_frame f s)) = file_type s
  /\ video_capture (state_of (video_frame f s)) = video_capture s.
Proof.
  destruct (video_frame_effect f s) as (_ & _ & _ & _ & _ & _ & Hcfg).
  destruct Hcfg as (_ & _ & _ & -> & -> & _ & ->). repeat split; reflexivity.
Qed.

Lemma _play_video_thread_app (fa : list frame) (rest : list (option frame)) :
  forall s : gui,
    is_playing s = true ->
    video_capture s = true ->
    let r1 := _play_video_thread (map Some fa) s in
    let r2 := _play_video_thread rest (state_of r1) in
    _play_video_thread (map Some fa ++ rest) s
    = (outcome_of r2, state_of r2, events_of r1 ++ events_of r2).
Proof.
  induction fa as [|f fa IH]; intros s Hp Hc.
  - cbn. now destruct (_play_video_thread rest s) as [[o2 s2] ev2].
  - cbv zeta. cbn [map app].
    rewrite !(_play_video_thread_step f _ s Hp Hc).
    assert (Hp1 : is_playing (state_of (video_frame f s)) = true)
      by (rewrite (proj1 (video_frame_config f s)); exact Hp).
    assert (Hc1 : video_capture (state_of (video_frame f s)) = true)
      by (rewrite (proj2 (proj2 (video_frame_config f s))); exact Hc).
    rewrite (IH _ Hp1 Hc1).
    unfold events_of, state_of, outcome_of. cbn [fst snd].
    now rewrite app_assoc.
Qed.

Lemma toggle_twice_while_playing (s : gui) :
  is_playing s = true ->
  file_type s = Some Video ->
  video_capture s = true ->
  state_of (toggle_play_pause (state_of (toggle_play_pause s))) = s.
Proof.
  destruct s as [ft pl tot num ca th cd la df dd fl dl pc vc].
  cbn [is_playing file_type video_capture]. intros -> -> ->. reflexivity.
Qed.

(** X12. Pausing a playback and resuming it loses nothing: the frames
    played before the pause and after the resume leave the same state,
    counters included, as the same frames played in one go. (A playback
    is a state that plays a video and holds its capture, as [load_video]
    and [play_video] leave it.) *)
Theorem pause_resume_keeps_statistics (fa fb : list frame) (s : gui) :
  is_playing s = true ->
  file_type s = Some Video ->
  video_capture s = true ->
  let paused_at := state_of (_play_video_thread (map Some fa) s) in
  let resumed :=
    state_of (toggle_play_pause (state_of (toggle_play_pause paused_at))) in
  is_playing (state_of (toggle_play_pause paused_at)) = false
  /\ state_of (_play_video_thread (map Some fb) resumed)
     = state_of (_play_video_thread (map Some (fa ++ fb)) s).
Proof.
  intros Hp Hft Hc. cbv zeta.
  assert (Hinv : is_playing (state_of (_play_video_thread (map Some fa) s)) = true
                 /\ file_type (state_of (_play_video_thread (map Some fa) s))
                    = Some Video
                 /\ video_capture
                      (state_of (_play_video_thread (map Some fa) s)) = true).
  { apply (_play_video_thread_preserves
             (fun s' => is_playing s' = true /\ file_type s' = Some Video
                        /\ video_capture s' = true));
      [| now repeat split].
    intros f s' (H1 & H2 & H3).
    destruct (video_frame_config f s') as (-> & -> & ->).
    now repeat split. }
  destruct Hinv as (Hp' & Hft' & Hc').
  split.
  - unfold toggle_play_pause, bind, gets. rewrite Hp'. reflexivity.
  - rewrite (toggle_twice_while_playing _ Hp' Hft' Hc').
    rewrite map_app, (_play_video_thread_app fa (map Some fb) s Hp Hc).
    reflexivity.
Qed.

Lemma camera_frame_panel (f : frame) (t : float) (s : gui) :
  percentage_label (state_of (camera_frame f t s)) = percentage_label s.
Proof.
  unfold camera_frame, trigger_camera_alert, gtb.
  destruct (analyze_frame f) as [[[[[sc st] ind] le] re] ma].
  cbv [bind gets modify emit ret]. cbv zeta.
  destruct (sc >=? 65), (sc >=? 45); cbn;
    try (destruct (drowsy_frames s + 1 >=? alert_threshold s); cbn;
         try destruct (alert_cooldown s <? t - last_alert_time s)%float;
         cbn);
    reflexivity.
Qed.

(** X13. In a camera session the panel never shows progress: whatever
    frames the loop has processed, [update_results] writes 0 as the number
    of frames analysed and leaves the percentage at the 0 of the session
    start, while it does show the number of drowsy detections. *)
Theorem camera_panel_shows_no_frames
    (s : gui) (reads : list (option frame * float)) :
  let s' := state_of (_camera_loop reads (state_of (start_camera true s))) in
  let shown := state_of (update_results s') in
  frames_label shown = 0
  /\ percentage_label shown = 0%float
  /\ detections_label shown = drowsy_detections s'.
Proof.
  cbv zeta.
  set (s0 := state_of (start_camera true s)).
  assert (Hinv : file_type (state_of (_camera_loop reads s0)) = Some Camera
                 /\ total_frames (state_of (_camera_loop reads s0)) = 0
                 /\ percentage_label (state_of (_camera_loop reads s0))
                    = 0%float).
  { apply (_camera_loop_preserves
             (fun s' => file_type s' = Some Camera /\ total_frames s' = 0
                        /\ percentage_label s' = 0%float));
      [| repeat split].
    intros f t s' (H1 & H2 & H3).
    destruct (camera_frame_effect f t s') as (_ & _ & _ & _ & _ & _ & Hcfg).
    destruct Hcfg as (_ & _ & _ & _ & -> & -> & _).
    rewrite camera_frame_panel. now repeat split. }
  destruct Hinv as (Hft & Htot & Hpc).
  destruct (update_results_percentage (state_of (_camera_loop reads s0)))
    as (_ & _ & Hd & _).
  destruct (update_results_camera _ Hft Htot) as [Hp Hf].
  rewrite Hp, Hpc. repeat split; assumption.
Qed.

Lemma analyze_image_state (readable : bool) (f : frame) (s : gui) :
  state_of (analyze_image readable f s) = s.
Proof.
  unfold analyze_image, _analyze_image_thread.
  destruct (analyze_frame f) as [[[[[sc st] ind] le] re] ma].
  cbv [bind gets emit ret state_of].
  destruct (is_image (file_type s)), readable; reflexivity.
Qed.

(** X14. Analysing an image never counts it: after an image is loaded
    and analysed, whatever its score, the state is as loading left it and
    the panel shows one frame, no drowsy detection and 0 percent. *)
Theorem image_analysis_counts_nothing
    (s : gui) (n : Z) (readable : bool) (f : frame) :
  let loaded := state_of (load_file ImageExt true n s) in
  let analysed := state_of (analyze_image readable f loaded) in
  let shown := state_of (update_results analysed) in
  analysed = loaded
  /\ frames_label shown = 1
  /\ detections_label shown = 0
  /\ percentage_label shown = 0%float.
Proof.
  cbv zeta. rewrite analyze_image_state.
  repeat split; vm_compute; reflexivity.
Qed.

(** X15. Mutual exclusion holds in one direction only: starting the
    camera always stops playback, but loading a video and pressing Play
    while the camera runs leaves the camera loop active beside the
    playback loop. *)
Theorem camera_and_playback_can_overlap (s : gui) (n : Z) (opened : bool) :
  is_playing (state_of (start_camera opened s)) = false
  /\ (let s' :=
        state_of
          (play_video
             (state_of (load_file VideoExt true n
                          (state_of (start_camera true s))))) in
      camera_active s' = true /\ is_playing s' = true).
Proof. destruct opened; repeat split; reflexivity. Qed.

(** X16. A load or a camera start that fails (unreadable image, video or
    camera that does not open, unsupported extension) shows one error
    and stops playback, and the capture of the video that was loaded is
    gone: the attribute is [None], or holds the capture that did not
    open after a failed video load. File type, frame counters,
    statistics and last alert time stay as they were, yet after a failed
    image load, an unsupported extension or a failed camera start Play
    does nothing. *)
Theorem failed_start_keeps_session (s : gui) (n : Z) (usable : bool) :
  let stopped := set_video_capture false (set_is_playing false s) in
  load_file ImageExt false n s = (Ok tt, stopped, [ShowError])
  /\ load_file UnsupportedExt usable n s = (Ok tt, stopped, [ShowError])
  /\ start_camera false s = (Ok tt, stopped, [ShowError])
  /\ load_file VideoExt false n s
     = (Ok tt, set_video_capture true stopped, [ShowError])
  /\ play_video stopped = (Ok tt, stopped, []).
Proof. repeat split; reflexivity. Qed.

End MoreControlFacts.

(* ================================================================== *)
(** * Playback on the example platform *)

Section PlaybackExamples.
Import Frame Session Controls.
#[local] Existing Instance reference_platform.
Open Scope Z_scope.

Lemma replay_accumulates_witness :
  let s0 := state_of (play_video (state_of (load_file VideoExt true 2 init))) in
  let s1 := state_of (_play_video_thread [Some closed_eyes_frame; None] s0) in
  let s3 := state_of (play_video (state_of (on_video_end s1))) in
  let s4 := state_of (_play_video_thread [Some closed_eyes_frame; None] s3) in
  events_of (on_video_end s4) = [ShowInfo 1 2 200 2].
Proof.
  exact (replay_accumulates init 2 closed_eyes_frame [] closed_eyes_frame []
           eq_refl).
Defined.

Lemma pause_resume_keeps_statistics_witness :
  let paused_at :=
    state_of
      (_play_video_thread (map Some [closed_eyes_frame])
         (state_of (play_video (state_of (load_file VideoExt true 9 init))))) in
  let resumed :=
    state_of (toggle_play_pause (state_of (toggle_play_pause paused_at))) in
  is_playing (state_of (toggle_play_pause paused_at)) = false
  /\ state_of (_play_video_thread (map Some [empty_frame]) resumed)
     = state_of
         (_play_video_thread (map Some ([closed_eyes_frame] ++ [empty_frame]))
            (state_of (play_video (state_of (load_file VideoExt true 9 init))))).
Proof.
  exact (pause_resume_keeps_statistics [closed_eyes_frame] [empty_frame]
           (state_of (play_video (state_of (load_file VideoExt true 9 init))))
           eq_refl eq_refl eq_refl).
Defined.

End PlaybackExamples.

(* ================================================================== *)
(** * Alarm sound, dropped paths and frame pacing *)

Section AlarmFacts.
Import Alarm.

(** X17. An enabled alarm is never silent and never doubled: it gives
    exactly one sound, the bell when the sound libraries fail or are
    missing; a disabled alarm gives none; and the custom sound is played
    only when one was chosen, its path is not empty, the mixer is
    available and the playback calls succeed. *)
Theorem play_alarm_one_sound (cfg : settings) (audio_ok : bool) :
  List.length (play_alarm cfg audio_ok) = (if alarm_var cfg then 1 else 0)%nat
  /\ (audio_ok = false \/ pygame_available cfg = false ->
      play_alarm cfg audio_ok = if alarm_var cfg then [Bell] else [])
  /\ (forall path volume,
        In (CustomSound path volume) (play_alarm cfg audio_ok) ->
        alarm_var cfg = true /\ use_custom_alarm cfg = true
        /\ custom_alarm_path cfg = Some path /\ path <> EmptyString
        /\ pygame_available cfg = true /\ audio_ok = true
        /\ volume = alarm_volume cfg).
Proof.
  destruct cfg as [av uc [[|c p]|] vol pg]; unfold play_alarm;
    cbn [alarm_var use_custom_alarm custom_alarm_path alarm_volume
         pygame_available truthy];
    destruct av, uc, pg, audio_ok; cbn;
    (split; [reflexivity |]);
    (split; [intros [H|H]; first [discriminate H | reflexivity] |]);
    intros path volume Hin;
    repeat match goal with
           | H : _ \/ _ |- _ => destruct H
           | H : False |- _ => destruct H
           | H : CustomSound _ _ = CustomSound _ _ |- _ =>
               injection H as <- <-
           | H : _ = CustomSound _ _ |- _ => discriminate H
           end;
    repeat split; discriminate.
Qed.

Lemma play_alarm_one_sound_witness :
  play_alarm (mkSettings true true (Some "alarm.wav"%string) 0.7 true) false
  = [Bell].
Proof.
  exact (proj1 (proj2 (play_alarm_one_sound
                         (mkSettings true true (Some "alarm.wav"%string) 0.7 true)
                         false))
           (or_introl eq_refl)).
Defined.

End AlarmFacts.

Section PathFacts.
Import Stdlib.Strings.Ascii Paths.
Open Scope string_scope.

Lemma endswith_append (c : Ascii.ascii) (p : string) :
  endswith c (p ++ String c "") = true.
Proof.
  induction p as [|a p IH]; cbn [append endswith].
  - apply Ascii.eqb_refl.
  - destruct (p ++ String c "") eqn:E; [| exact IH].
    destruct p; discriminate E.
Qed.

Lemma substring_prefix (p q : string) :
  substring 0 (String.length p) (p ++ q) = p.
Proof.
  induction p as [|a p IH]; cbn [String.length append substring].
  - now destruct q.
  - now rewrite IH.
Qed.

Lemma length_append (p q : string) :
  String.length (p ++ q) = (String.length p + String.length q)%nat.
Proof. induction p as [|a p IH]; cbn; [reflexivity | now rewrite IH]. Qed.

(** X18. A path that arrives wrapped in braces is handed on without
    them, exactly as it was before wrapping, and a path that does not
    start with a brace is handed on unchanged. *)
Theorem drop_file_unwraps (p : string) :
  drop_file ("{" ++ p ++ "}") = p
  /\ (startswith "{"%char p = false -> drop_file p = p).
Proof.
  split.
  - unfold drop_file. cbn [append startswith].
    change (String "{" (p ++ "}")) with (String "{" (p ++ String "}" "")).
    assert (E : endswith "}"%char (String "{" (p ++ String "}" "")) = true).
    { cbn [endswith]. destruct (p ++ String "}" "") eqn:Ep.
      - destruct p; discriminate Ep.
      - rewrite <- Ep. apply endswith_append. }
    rewrite E. cbn [Ascii.eqb Bool.eqb andb].
    unfold slice_1_m1. cbn [String.length].
    rewrite length_append. cbn [String.length].
    replace (S (String.length p + 1) - 2)%nat with (String.length p) by lia.
    cbn [substring]. apply substring_prefix.
  - intros H. unfold drop_file. now rewrite H.
Qed.

Lemma drop_file_unwraps_witness :
  drop_file "C:/videos/night drive.mp4" = "C:/videos/night drive.mp4".
Proof.
  exact (proj2 (drop_file_unwraps "C:/videos/night drive.mp4") eq_refl).
Defined.

End PathFacts.

Section PacingFacts.
Import Pacing.
Open Scope float_scope.

(** X19. Whatever frame rate the container reports, zero of either sign
    included, the rate that [load_video] keeps is not 0, so the frame
    delay and the progress time of the playback thread are computed
    without a division by zero; and the time the thread sleeps is never
    negative and never a NaN, however late the frame is. *)
Theorem playback_pacing_is_safe (reported elapsed : float) (frame_num : Z) :
  (video_fps reported =? 0) = false
  /\ frame_delay (video_fps reported) = Ok (1 / video_fps reported)
  /\ progress_time frame_num (video_fps reported)
     = Ok (float_of_int frame_num / video_fps reported)
  /\ (0 <=? sleep_time (1 / video_fps reported) elapsed) = true.
Proof.
  assert (H : (video_fps reported =? 0) = false).
  { unfold video_fps. destruct (reported =? 0) eqn:E; [reflexivity | exact E]. }
  unfold frame_delay, progress_time, fdiv. rewrite H.
  repeat split.
  unfold sleep_time. cbv zeta.
  destruct (0 <? 1 / video_fps reported - elapsed) eqn:E.
  - now apply ltb_leb.
  - reflexivity.
Qed.

End PacingFacts.
